(** * MemoryDatastore: the in-memory reference backend of the Datastore contract

    A shallow embedding of the class [MemoryDatastore] together with the
    properties its contract states about it.

    Conventions of the embedding.
    - Every method of the class is [async]: a call yields a promise that is
      either fulfilled with a value or rejected with an error.  A call is a
      function of the receiver's state returning a [Result] and the state
      after the call ([Async]).
    - The field [docMetas] is a plain JavaScript object used as a
      dictionary.  It is modelled as such ([JsObject]): its own properties
      in the order they were created, and its prototype, [Object.prototype],
      whose members are seen by [in] and by property reads and whose
      [__proto__] accessor intercepts an assignment to that name;
      [Object.keys] lists array indices first, in ascending order, then the
      other names in the order they were created.
    - The field [files] is a plain object too, but each of its keys holds a
      colon, so a key is never an inherited name or an array index; it is a
      finite map with string keys.
    - TypeScript types are erased at run time, so the payload of [write] is
      an arbitrary JavaScript value and the [name] of a [FileRef] may be
      missing.
    - Logging ([log.info] in [getDocMeta]) is not part of the state. *)

From stdpp Require Import gmap strings list fin_maps sorting.

Local Open Scope string_scope.

(** ** JavaScript values *)

(** An object is given by the members a property read finds on it, its
    own and its inherited ones; of a function only its name is kept. *)
#[warnings="-register-all"] Inductive JSValue : Type :=
  | VUndefined
  | VNull
  | VBoolean (b : bool)
  | VNumber (n : Z)
  | VString (s : string)
  | VObject (members : list (string * JSValue))
  | VFunction (fname : string).

(** The [typeof] operator. *)
Definition typeof (v : JSValue) : string :=
  match v with
  | VUndefined => "undefined"
  | VNull => "object"
  | VBoolean _ => "boolean"
  | VNumber _ => "number"
  | VString _ => "string"
  | VObject _ => "object"
  | VFunction _ => "function"
  end.

(** String conversion of a property that holds a string or is missing, as
    done by a template literal and by [+] with a string operand. *)
Definition ToString (v : option string) : string :=
  match v with
  | Some s => s
  | None => "undefined"
  end.

(** ** Errors and settled promises *)

Inductive Error : Type :=
  | TypeMismatchError
  | InvalidKeyError
  | TypeError
  | IOError.

Inductive Result (A : Type) : Type :=
  | Ok (a : A)
  | Err (e : Error).

Arguments Ok {A} a.
Arguments Err {A} e.

Definition is_ok {A} (r : Result A) : bool :=
  match r with Ok _ => true | Err _ => false end.

(** An asynchronous call over a state [S]: the settled promise and the
    state the call leaves behind. *)
Definition Async (S A : Type) : Type := S -> Result A * S.

Definition ret {S A} (a : A) : Async S A := fun s => (Ok a, s).

Definition throw {S A} (e : Error) : Async S A := fun s => (Err e, s).

Definition andThen {S A B} (m : Async S A) (k : A -> Async S B) : Async S B :=
  fun s =>
    match m s with
    | (Ok a, s') => k a s'
    | (Err e, s') => (Err e, s')
    end.

Definition getState {S} : Async S S := fun s => (Ok s, s).

Definition modifyState {S} (f : S -> S) : Async S unit := fun s => (Ok tt, f s).

Notation "'await' x ':=' m 'in' k" := (andThen m (fun x => k))
  (at level 10, x name, m at level 100, k at level 200).
Notation "m ';;' k" := (andThen m (fun _ => k))
  (at level 100, k at level 200, right associativity).

(** ** Helpers the class imports *)

(** Modelled from the spec: [Preconditions.assertTypeOf] is not among the
    sources.  A payload that fails the required-type check fails with
    [TypeMismatchError]; otherwise the value is returned. *)
Definition assertTypeOf {S} (value : JSValue) (type name : string) : Async S JSValue :=
  if decide (typeof value = type) then ret value else throw TypeMismatchError.

(** Modelled from the spec: [isPresent] of Preconditions is not among the
    sources; it tells whether a value is neither [undefined] nor [null]. *)
Definition isPresent {A} (v : option A) : bool :=
  match v with Some _ => true | None => false end.

(** Modelled from the spec: the [Optional] helper (util/ts/Optional) is not
    among the sources.  An optional is empty or holds a value; [of_] wraps a
    possibly missing value, [map] applies a function to a held value,
    [getOrUndefined] gives the held value or [undefined]. *)
Module Optional.

Definition t (A : Type) : Type := option A.

Definition empty {A} : t A := None.

Definition of_ {A} (v : option A) : t A := v.

Definition map {A B} (f : A -> option B) (o : t A) : t B :=
  match o with
  | Some a => of_ (f a)
  | None => empty
  end.

Definition getOrUndefined {A} (o : t A) : option A := o.

End Optional.

(** ** Plain objects

    A plain object as the language defines it: own properties in creation
    order over a prototype.  [Object.prototype] is taken as the language
    defines it, with nothing added to it. *)

(** Properties in creation order: the value under a name, and the
    assignment of a name, which keeps the place of a name that is there and
    puts a new name last. *)
Fixpoint assoc_lookup {V} (k : string) (l : list (string * V)) : option V :=
  match l with
  | [] => None
  | (k', v) :: l' => if String.eqb k' k then Some v else assoc_lookup k l'
  end.

Fixpoint assoc_set {V} (k : string) (v : V) (l : list (string * V)) : list (string * V) :=
  match l with
  | [] => [(k, v)]
  | (k', v') :: l' =>
      if String.eqb k' k then (k, v) :: l' else (k', v') :: assoc_set k v l'
  end.

(** The members a read finds on a value used as a prototype. *)
Definition members_of (v : JSValue) : list (string * JSValue) :=
  match v with
  | VObject ms => ms
  | _ => []
  end.

(** [Object.prototype]: eleven functions and the accessor [__proto__],
    which reads as [null] on [Object.prototype] itself. *)
Definition ObjectPrototype : JSValue :=
  VObject
    [ ("constructor", VFunction "Object");
      ("__defineGetter__", VFunction "__defineGetter__");
      ("__defineSetter__", VFunction "__defineSetter__");
      ("hasOwnProperty", VFunction "hasOwnProperty");
      ("__lookupGetter__", VFunction "__lookupGetter__");
      ("__lookupSetter__", VFunction "__lookupSetter__");
      ("isPrototypeOf", VFunction "isPrototypeOf");
      ("propertyIsEnumerable", VFunction "propertyIsEnumerable");
      ("toString", VFunction "toString");
      ("valueOf", VFunction "valueOf");
      ("__proto__", VNull);
      ("toLocaleString", VFunction "toLocaleString") ].

Record JsObject : Type := mkJsObject {
  own : list (string * JSValue);
  prototype : JSValue
}.

Definition hasOwnProperty (k : string) (o : JsObject) : bool :=
  isPresent (assoc_lookup k (own o)).

Definition inherits (k : string) (o : JsObject) : bool :=
  isPresent (assoc_lookup k (members_of (prototype o))).

(** [k in o]: an own or an inherited member. *)
Definition hasProperty (k : string) (o : JsObject) : bool :=
  hasOwnProperty k o || inherits k o.

(** [o[k]]: the own value, else the inherited member; the inherited
    [__proto__] is an accessor whose getter gives the prototype of [o]. *)
Definition getProperty (k : string) (o : JsObject) : JSValue :=
  match assoc_lookup k (own o) with
  | Some v => v
  | None =>
      match assoc_lookup k (members_of (prototype o)) with
      | Some v => if String.eqb k "__proto__" then prototype o else v
      | None => VUndefined
      end
  end.

(** [o[k] = v]: an own property is assigned in place.  Otherwise the
    inherited setter of [__proto__] takes the assignment: it replaces the
    prototype when [v] is an object or [null] and ignores every other
    value.  Any other name becomes a new own property. *)
(** An assignment to [k] reaches the inherited setter: [k] is [__proto__],
    not an own property, and the prototype has the accessor. *)
Definition reachesSetter (k : string) (o : JsObject) : bool :=
  negb (hasOwnProperty k o) && String.eqb k "__proto__" && inherits k o.

Definition setProperty (k : string) (v : JSValue) (o : JsObject) : JsObject :=
  if reachesSetter k o then
    match v with
    | VNull | VObject _ | VFunction _ => {| own := own o; prototype := v |}
    | _ => o
    end
  else {| own := assoc_set k v (own o); prototype := prototype o |}.

(** An array index is a canonical decimal numeral below [2^32 - 1]. *)
Definition digit (c : Ascii.ascii) : option N :=
  let n := Ascii.N_of_ascii c in
  if (48 <=? n)%N && (n <=? 57)%N then Some (n - 48)%N else None.

Fixpoint parse_digits (s : string) (acc : N) : option N :=
  match s with
  | EmptyString => Some acc
  | String c s' =>
      match digit c with
      | Some d => parse_digits s' (10 * acc + d)%N
      | None => None
      end
  end.

Definition array_index (s : string) : option N :=
  match s with
  | EmptyString => None
  | String c s' =>
      if String.eqb (String c EmptyString) "0" then
        if String.eqb s' "" then Some 0%N else None
      else
        match parse_digits s 0 with
        | Some n => if (n <? 4294967295)%N then Some n else None
        | None => None
        end
  end.

Definition index_le (a b : string) : Prop :=
  (default 0 (array_index a) <= default 0 (array_index b))%N.

#[global] Instance index_le_dec (a b : string) : Decision (index_le a b).
Proof. unfold index_le. apply _. Defined.

(** [Object.keys(o)]: the own names, array indices first in ascending
    order, then the other names in creation order. *)
Definition ownKeys (o : JsObject) : list string :=
  let ks := (own o).*1 in
  (merge_sort index_le (filter (fun k => is_Some (array_index k)) ks)
   ++ filter (fun k => ¬ is_Some (array_index k)) ks)%list.

(** The object literal [{}]. *)
Definition emptyObject : JsObject := {| own := []; prototype := ObjectPrototype |}.

(** ** Data model *)

(** [Backend] is a string enumeration; at run time a backend is its string. *)
Definition Backend : Type := string.

(** [FileRef]: TypeScript declares [name: string]; [None] is a reference
    whose [name] is missing. *)
Record FileRef : Type := mkFileRef { name : option string }.

(** [DocMetaFileRef]: a fingerprint and, optionally, the document's file. *)
Record DocMetaFileRef : Type := mkDocMetaFileRef {
  fingerprint : string;
  docFile : option FileRef
}.

Record DocMetaRef : Type := mkDocMetaRef { ref_fingerprint : string }.

#[global] Instance DocMetaRef_eq_dec : EqDecision DocMetaRef.
Proof. solve_decision. Defined.

Definition Buffer : Type := list Byte.byte.

(** [FileMeta] is an open map with string keys. *)
Definition FileMeta : Type := gmap string string.

Record FileData : Type := mkFileData {
  buffer : Buffer;
  meta : FileMeta
}.

Record DatastoreFile : Type := mkDatastoreFile {
  file_backend : Backend;
  file_ref : FileRef;
  url : string;
  file_meta : FileMeta
}.

Record FileDeleted : Type := mkFileDeleted {
  path : string;
  deleted : bool
}.

Record DeleteResult : Type := mkDeleteResult {
  docMetaFile : FileDeleted;
  dataFile : FileDeleted
}.

(** What [writeFile] accepts: a string, a buffer, or a handle with a path. *)
Inductive FileInput : Type :=
  | DataString (s : string)
  | DataBuffer (b : Buffer)
  | DataHandle (handle_path : string).

(** The file system [Files.readFileAsync] reads from. *)
Definition Disk : Type := gmap string Buffer.

(** ** The mutation of a write

    A [DatastoreMutation] carries two futures, [written] and [committed].
    Its state is the sequence of [resolve] calls made on them, oldest
    first. *)

Inductive Future : Type := written | committed.

#[global] Instance Future_eq_dec : EqDecision Future.
Proof. solve_decision. Defined.

Record Resolution : Type := mkResolution {
  future : Future;
  value : bool
}.

Definition DatastoreMutation : Type := list Resolution.

(** [new DefaultDatastoreMutation()]: nothing resolved yet. *)
Definition DefaultDatastoreMutation : DatastoreMutation := [].

(** The values a future was resolved with, oldest first. *)
Definition resolutions (fut : Future) (m : DatastoreMutation) : list bool :=
  value <$> filter (fun r => future r = fut) m.

(** The position, among all [resolve] calls made on the mutation, of the
    first one made on [fut]. *)
Definition resolvedAt (fut : Future) (m : DatastoreMutation) : option nat :=
  fst <$> list_find (fun r => future r = fut) m.

(** ** The store *)

Record MemoryDatastore : Type := mkMemoryDatastore {
  docMetas : JsObject;
  files : gmap string FileData
}.

(** The constructor. *)
Definition new_MemoryDatastore : MemoryDatastore :=
  {| docMetas := emptyObject; files := ∅ |}.

Definition set_docMetas (f : JsObject -> JsObject)
    (this : MemoryDatastore) : MemoryDatastore :=
  {| docMetas := f (docMetas this); files := files this |}.

Definition set_files (f : gmap string FileData -> gmap string FileData)
    (this : MemoryDatastore) : MemoryDatastore :=
  {| docMetas := docMetas this; files := f (files this) |}.

(** ** Methods of [MemoryDatastore] *)

Definition contains (fingerprint : string) : Async MemoryDatastore bool :=
  await this := getState in
  ret (hasProperty fingerprint (docMetas this)).

Definition delete (docMetaFileRef : DocMetaFileRef) : Async MemoryDatastore DeleteResult :=
  let result :=
    {| docMetaFile :=
         {| path := "/" ++ fingerprint docMetaFileRef ++ ".json";
            deleted := false |};
       dataFile :=
         {| path := "/" ++ ToString
                      (Optional.getOrUndefined
                         (Optional.map (fun current => name current)
                            (Optional.of_ (docFile docMetaFileRef))));
            deleted := false |} |} in
  await present := contains (fingerprint docMetaFileRef) in
  if present then
    ret {| docMetaFile := {| path := path (docMetaFile result); deleted := true |};
           dataFile := {| path := path (dataFile result); deleted := true |} |}
  else
    ret result.

Definition toFileRefKey (backend : Backend) (fileRef : FileRef) : string :=
  backend ++ ":" ++ ToString (name fileRef).

(** [Buffer.from(data)] for a string: the bytes of the string. *)
Definition Buffer_from (data : string) : Buffer := String.list_byte_of_string data.

(** [Files.readFileAsync(path)]: the bytes at [path], or a rejection when
    the file system has nothing there. *)
Definition readFileAsync {S} (disk : Disk) (file_path : string) : Async S Buffer :=
  match disk !! file_path with
  | Some b => ret b
  | None => throw IOError
  end.

Definition writeFile (disk : Disk) (backend : Backend) (ref : FileRef)
    (data : FileInput) (meta : FileMeta) : Async MemoryDatastore DatastoreFile :=
  let key := toFileRefKey backend ref in
  await buff :=
    match data with
    | DataString s => ret (Buffer_from s)
    | DataBuffer b => ret b
    | DataHandle p => readFileAsync disk p
    end in
  modifyState (set_files <[key := {| buffer := buff; meta := meta |}]>) ;;
  ret {| file_backend := backend; file_ref := ref; url := "FIXME:none";
         file_meta := meta |}.

Definition getFile (backend : Backend) (ref : FileRef)
    : Async MemoryDatastore (Optional.t DatastoreFile) :=
  let key := toFileRefKey backend ref in
  if decide (key = "") then
    ret Optional.empty
  else
    await this := getState in
    let fileData := files this !! key in
    match fileData with
    | Some fd =>
        ret (Optional.of_
               (Some {| file_backend := backend; file_ref := ref;
                        url := "FIXME:none"; file_meta := meta fd |}))
    | None => throw TypeError
    end.

Definition containsFile (backend : Backend) (ref : FileRef) : Async MemoryDatastore bool :=
  let key := toFileRefKey backend ref in
  await this := getState in
  ret (isPresent (files this !! key)).

Definition deleteFile (backend : Backend) (ref : FileRef) : Async MemoryDatastore unit :=
  let key := toFileRefKey backend ref in
  modifyState (set_files (base.delete key)).

Definition getDocMeta (fingerprint : string) : Async MemoryDatastore JSValue :=
  await this := getState in
  ret (getProperty fingerprint (docMetas this)).

(** The state of a [write] is the store together with the mutation the
    caller passed (a fresh [DefaultDatastoreMutation] when none is). *)
Definition onStore (f : MemoryDatastore -> MemoryDatastore)
    : Async (MemoryDatastore * DatastoreMutation) unit :=
  modifyState (fun st => (f (fst st), snd st)).

Definition resolveFuture (fut : Future) (v : bool)
    : Async (MemoryDatastore * DatastoreMutation) unit :=
  modifyState (fun st => (fst st, (snd st ++ [{| future := fut; value := v |}])%list)).

Definition write {DocInfo : Type} (fingerprint : string) (data : JSValue)
    (docInfo : DocInfo) : Async (MemoryDatastore * DatastoreMutation) unit :=
  assertTypeOf data "string" "data" ;;
  onStore (set_docMetas (setProperty fingerprint data)) ;;
  resolveFuture written true ;;
  resolveFuture committed true.

Definition getDocMetaFiles : Async MemoryDatastore (list DocMetaRef) :=
  await this := getState in
  ret (mkDocMetaRef <$> ownKeys (docMetas this)).

(** The bytes [writeFile] stores for [data]: those of the string, the
    buffer itself, or what the file system holds at the handle's path. *)
Definition stored_bytes (disk : Disk) (data : FileInput) : option Buffer :=
  match data with
  | DataString s => Some (Buffer_from s)
  | DataBuffer b => Some b
  | DataHandle p => disk !! p
  end.

(** ** Histories of calls

    A history is the sequence of calls made on one store since it was
    constructed.  Each [write] of a history brings its own mutation, which
    the store does not keep. *)

Section History.

Context {DocInfo : Type}.
Variable disk : Disk.

Inductive Call : Type :=
  | CallContains (fingerprint : string)
  | CallDelete (docMetaFileRef : DocMetaFileRef)
  | CallWriteFile (backend : Backend) (ref : FileRef) (data : FileInput) (meta : FileMeta)
  | CallGetFile (backend : Backend) (ref : FileRef)
  | CallContainsFile (backend : Backend) (ref : FileRef)
  | CallDeleteFile (backend : Backend) (ref : FileRef)
  | CallGetDocMeta (fingerprint : string)
  | CallWrite (fingerprint : string) (data : JSValue) (docInfo : DocInfo)
  | CallGetDocMetaFiles.

(** The store a call leaves behind. *)
Definition exec (c : Call) (this : MemoryDatastore) : MemoryDatastore :=
  match c with
  | CallContains f => snd (contains f this)
  | CallDelete r => snd (delete r this)
  | CallWriteFile b r d m => snd (writeFile disk b r d m this)
  | CallGetFile b r => snd (getFile b r this)
  | CallContainsFile b r => snd (containsFile b r this)
  | CallDeleteFile b r => snd (deleteFile b r this)
  | CallGetDocMeta f => snd (getDocMeta f this)
  | CallWrite f d di => fst (snd (write f d di (this, DefaultDatastoreMutation)))
  | CallGetDocMetaFiles => snd (getDocMetaFiles this)
  end.

Definition run (h : list Call) (this : MemoryDatastore) : MemoryDatastore :=
  foldl (fun s c => exec c s) this h.

(** [c] is a successful [write] to fingerprint [f]. *)
Definition writes_to (f : string) (c : Call) : bool :=
  match c with
  | CallWrite f' d _ => bool_decide (f' = f) && bool_decide (typeof d = "string")
  | _ => false
  end.

(** Some call of [h] is a successful [write] to [f]. *)
Definition written_in (f : string) (h : list Call) : bool :=
  existsb (writes_to f) h.

(** The payload of the latest successful [write] to [f] in [h], or
    [before] when there is none. *)
Fixpoint last_written (f : string) (h : list Call) (before : JSValue) : JSValue :=
  match h with
  | [] => before
  | CallWrite f' d _ :: h' =>
      last_written f h'
        (if bool_decide (f' = f) && bool_decide (typeof d = "string") then d else before)
  | _ :: h' => last_written f h' before
  end.

(** [c] is a [writeFile] under the key of [(b, r)] whose data can be read. *)
Definition writes_file (b : Backend) (r : FileRef) (c : Call) : bool :=
  match c with
  | CallWriteFile b' r' d _ =>
      bool_decide (toFileRefKey b' r' = toFileRefKey b r)
      && isPresent (stored_bytes disk d)
  | _ => false
  end.

Definition file_written_in (b : Backend) (r : FileRef) (h : list Call) : bool :=
  existsb (writes_file b r) h.

End History.

Arguments Call : clear implicits.

(** ** The remaining methods and auxiliary notions *)

(** [stop] does nothing. *)
Definition stop : Async MemoryDatastore unit := ret tt.

(** [addDocMetaSnapshotEventListener] does nothing with its listener. *)
Definition addDocMetaSnapshotEventListener {Listener : Type} (listener : Listener)
    (this : MemoryDatastore) : MemoryDatastore := this.

(** [f] names a member a new store inherits from [Object.prototype]. *)
Definition inherited_name (f : string) : bool :=
  isPresent (assoc_lookup f (members_of ObjectPrototype)).

(** The string holds a colon, the separator of a file key. *)
Fixpoint has_colon (s : string) : bool :=
  match s with
  | EmptyString => false
  | String c s' => String.eqb (String c EmptyString) ":" || has_colon s'
  end.

(** What a call of a history does to the entry under one file key: a
    readable [writeFile] under the key sets it, a [deleteFile] under the
    key clears it, every other call leaves it. *)
Definition file_step {DocInfo : Type} (disk : Disk) (key : string)
    (before : option FileData) (c : Call DocInfo) : option FileData :=
  match c with
  | CallWriteFile b r d fm =>
      if decide (toFileRefKey b r = key) then
        match stored_bytes disk d with
        | Some buf => Some {| buffer := buf; meta := fm |}
        | None => before
        end
      else before
  | CallDeleteFile b r =>
      if decide (toFileRefKey b r = key) then None else before
  | _ => before
  end.

Definition last_file {DocInfo : Type} (disk : Disk) (key : string)
    (h : list (Call DocInfo)) (before : option FileData) : option FileData :=
  foldl (file_step disk key) before h.

(** * Properties *)

(** ** Plain objects *)

Section Assoc.
Context {V : Type}.
Implicit Types (l : list (string * V)) (k : string) (v : V).

Lemma assoc_lookup_set_eq k v l : assoc_lookup k (assoc_set k v l) = Some v.
Proof.
  induction l as [|[k' v'] l IH]; simpl.
  - by rewrite String.eqb_refl.
  - destruct (String.eqb k' k) eqn:E; simpl.
    + by rewrite String.eqb_refl.
    + by rewrite E.
Qed.

Lemma assoc_lookup_set_ne k k' v l :
  k ≠ k' -> assoc_lookup k' (assoc_set k v l) = assoc_lookup k' l.
Proof.
  intros Hne. induction l as [|[k0 v0] l IH]; simpl.
  - destruct (String.eqb k k') eqn:E; [|done]. by apply String.eqb_eq in E.
  - destruct (String.eqb k0 k) eqn:E; simpl.
    + apply String.eqb_eq in E as ->.
      destruct (String.eqb k k') eqn:E'; [|done]. by apply String.eqb_eq in E'.
    + by rewrite IH.
Qed.

Lemma assoc_set_set k v1 v2 l : assoc_set k v2 (assoc_set k v1 l) = assoc_set k v2 l.
Proof.
  induction l as [|[k' v'] l IH]; simpl.
  - by rewrite String.eqb_refl.
  - destruct (String.eqb k' k) eqn:E; simpl.
    + by rewrite String.eqb_refl.
    + by rewrite E, IH.
Qed.

Lemma assoc_lookup_elem k l : isPresent (assoc_lookup k l) = true <-> k ∈ l.*1.
Proof.
  induction l as [|[k' v'] l IH]; simpl.
  - split; [done|]. intros H. by apply elem_of_nil in H.
  - rewrite elem_of_cons. destruct (String.eqb k' k) eqn:E; simpl.
    + apply String.eqb_eq in E as ->. split; auto.
    + rewrite IH. split; [auto|]. intros [->|H]; [|done].
      by rewrite String.eqb_refl in E.
Qed.

Lemma assoc_set_keys k v l :
  (assoc_set k v l).*1
  = if isPresent (assoc_lookup k l) then l.*1 else (l.*1 ++ [k])%list.
Proof.
  induction l as [|[k' v'] l IH]; [done|]. cbn [assoc_set assoc_lookup].
  destruct (String.eqb k' k) eqn:E; rewrite !fmap_cons; cbn [fst isPresent].
  - apply String.eqb_eq in E as ->. done.
  - rewrite IH. by destruct (isPresent (assoc_lookup k l)).
Qed.

Lemma assoc_set_NoDup k v l : NoDup l.*1 -> NoDup (assoc_set k v l).*1.
Proof.
  intros Hnd. rewrite assoc_set_keys.
  destruct (isPresent (assoc_lookup k l)) eqn:E; [done|].
  apply NoDup_app. split; [done|]. split.
  - intros x Hx Hk. apply list_elem_of_singleton in Hk as ->.
    apply assoc_lookup_elem in Hx. congruence.
  - apply NoDup_singleton.
Qed.

End Assoc.

Lemma ownKeys_Permutation (o : JsObject) : ownKeys o ≡ₚ (own o).*1.
Proof.
  unfold ownKeys. rewrite merge_sort_Permutation. apply filter_app_complement.
Qed.

Lemma elem_of_ownKeys (k : string) (o : JsObject) :
  k ∈ ownKeys o <-> hasOwnProperty k o = true.
Proof.
  rewrite (ownKeys_Permutation o). unfold hasOwnProperty.
  symmetry. apply assoc_lookup_elem.
Qed.

Lemma setProperty_string (k d : string) (o : JsObject) :
  setProperty k (VString d) o
  = if reachesSetter k o then o
    else {| own := assoc_set k (VString d) (own o); prototype := prototype o |}.
Proof. reflexivity. Qed.

Lemma reachesSetter_proto (k : string) (o : JsObject) :
  reachesSetter k o = true -> k = "__proto__" ∧ inherits k o = true ∧ hasOwnProperty k o = false.
Proof.
  unfold reachesSetter. intros H.
  apply andb_true_iff in H as [H Hi]. apply andb_true_iff in H as [Ho Hk].
  apply String.eqb_eq in Hk. apply negb_true_iff in Ho. done.
Qed.

Lemma prototype_setProperty_string (k d : string) (o : JsObject) :
  prototype (setProperty k (VString d) o) = prototype o.
Proof. rewrite setProperty_string. by destruct (reachesSetter k o). Qed.

Lemma hasOwnProperty_set_eq (k d : string) (o : JsObject) :
  hasOwnProperty k (setProperty k (VString d) o) = negb (reachesSetter k o).
Proof.
  rewrite setProperty_string. destruct (reachesSetter k o) eqn:E; simpl.
  - by apply reachesSetter_proto in E as (_ & _ & ->).
  - unfold hasOwnProperty. simpl. by rewrite assoc_lookup_set_eq.
Qed.

Lemma hasOwnProperty_set_ne (k k' d : string) (o : JsObject) :
  k ≠ k' -> hasOwnProperty k' (setProperty k (VString d) o) = hasOwnProperty k' o.
Proof.
  intros Hne. rewrite setProperty_string. destruct (reachesSetter k o); [done|].
  unfold hasOwnProperty. simpl. by rewrite assoc_lookup_set_ne.
Qed.

Lemma inherits_setProperty_string (k k' d : string) (o : JsObject) :
  inherits k' (setProperty k (VString d) o) = inherits k' o.
Proof. unfold inherits. by rewrite prototype_setProperty_string. Qed.

Lemma hasProperty_set_eq (k d : string) (o : JsObject) :
  hasProperty k (setProperty k (VString d) o) = true.
Proof.
  unfold hasProperty. rewrite hasOwnProperty_set_eq, inherits_setProperty_string.
  destruct (reachesSetter k o) eqn:E; [|done].
  by apply reachesSetter_proto in E as (_ & -> & _).
Qed.

Lemma hasProperty_set_ne (k k' d : string) (o : JsObject) :
  k ≠ k' -> hasProperty k' (setProperty k (VString d) o) = hasProperty k' o.
Proof.
  intros Hne. unfold hasProperty.
  by rewrite hasOwnProperty_set_ne, inherits_setProperty_string.
Qed.

Lemma getProperty_set_eq (k d : string) (o : JsObject) :
  k ≠ "__proto__" -> getProperty k (setProperty k (VString d) o) = VString d.
Proof.
  intros Hk. rewrite setProperty_string. destruct (reachesSetter k o) eqn:E.
  - by apply reachesSetter_proto in E as (? & _ & _).
  - unfold getProperty. simpl. by rewrite assoc_lookup_set_eq.
Qed.

Lemma getProperty_set_ne (k k' d : string) (o : JsObject) :
  k ≠ k' -> getProperty k' (setProperty k (VString d) o) = getProperty k' o.
Proof.
  intros Hne. rewrite setProperty_string. destruct (reachesSetter k o); [done|].
  unfold getProperty. simpl. by rewrite assoc_lookup_set_ne.
Qed.

Lemma setProperty_twice (k d1 d2 : string) (o : JsObject) :
  setProperty k (VString d2) (setProperty k (VString d1) o) = setProperty k (VString d2) o.
Proof.
  rewrite (setProperty_string k d1 o). destruct (reachesSetter k o) eqn:E; [done|].
  rewrite !setProperty_string, E.
  assert (Hr : reachesSetter k {| own := assoc_set k (VString d1) (own o);
                                  prototype := prototype o |} = false).
  { unfold reachesSetter, hasOwnProperty. simpl. by rewrite assoc_lookup_set_eq. }
  rewrite Hr. simpl. by rewrite assoc_set_set.
Qed.

(** ** Basic equations of the methods *)

Section Equations.

Context {DocInfo : Type}.
Implicit Types (this : MemoryDatastore) (m : DatastoreMutation) (di : DocInfo).

Lemma write_string (f d : string) di this m :
  write f (VString d) di (this, m)
  = (Ok tt,
     (set_docMetas (setProperty f (VString d)) this,
      (m ++ [ {| future := written; value := true |};
              {| future := committed; value := true |} ])%list)).
Proof.
  unfold write, andThen, assertTypeOf, onStore, resolveFuture, modifyState, ret.
  simpl. by rewrite <- app_assoc.
Qed.

Lemma typeof_string (v : JSValue) : typeof v = "string" -> exists d, v = VString d.
Proof. destruct v; simpl; try discriminate. eauto. Qed.

Lemma write_rejected (f : string) (data : JSValue) di st :
  typeof data ≠ "string" ->
  write f data di st = (Err TypeMismatchError, st).
Proof.
  intros Hty. unfold write, andThen, assertTypeOf, throw.
  by rewrite decide_False.
Qed.

Lemma contains_eq (f : string) this :
  contains f this = (Ok (hasProperty f (docMetas this)), this).
Proof. reflexivity. Qed.

End Equations.

Section StoreEquations.

Implicit Types (this : MemoryDatastore).

Lemma getDocMeta_eq (f : string) this :
  getDocMeta f this = (Ok (getProperty f (docMetas this)), this).
Proof. reflexivity. Qed.

Lemma delete_eq (r : DocMetaFileRef) this :
  delete r this
  = (Ok {| docMetaFile :=
             {| path := "/" ++ fingerprint r ++ ".json";
                deleted := hasProperty (fingerprint r) (docMetas this) |};
           dataFile :=
             {| path := "/" ++ ToString (docFile r ≫= name);
                deleted := hasProperty (fingerprint r) (docMetas this) |} |},
     this).
Proof.
  unfold delete, andThen. rewrite contains_eq.
  destruct r as [fp [[n]|]]; simpl;
    by destruct (hasProperty fp (docMetas this)).
Qed.

Lemma toFileRefKey_nonempty (b : Backend) (r : FileRef) : toFileRefKey b r ≠ "".
Proof. unfold toFileRefKey. destruct b; discriminate. Qed.

Lemma string_length_append (a b : string) :
  String.length (a ++ b) = String.length a + String.length b.
Proof.
  induction a as [|c a IH]; [done|].
  change (S (String.length (a ++ b)) = S (String.length a + String.length b)).
  by rewrite IH.
Qed.

Lemma append_inj_r (a b t : string) : a ++ t = b ++ t -> a = b.
Proof.
  intros H.
  assert (Hlen : String.length a = String.length b).
  { apply (f_equal String.length) in H. rewrite !string_length_append in H. lia. }
  revert b H Hlen. induction a as [|c a IH]; intros [|c' b] H Hlen;
    try discriminate Hlen; [done|].
  injection H as -> H. f_equal. apply IH; [done | by injection Hlen].
Qed.

Lemma toFileRefKey_inj_backend (a b : Backend) (r : FileRef) :
  toFileRefKey a r = toFileRefKey b r -> a = b.
Proof. unfold toFileRefKey. apply append_inj_r. Qed.

Lemma getFile_eq (b : Backend) (r : FileRef) this :
  getFile b r this
  = (match files this !! toFileRefKey b r with
     | Some fd => Ok (Some {| file_backend := b; file_ref := r;
                              url := "FIXME:none"; file_meta := meta fd |})
     | None => Err TypeError
     end, this).
Proof.
  unfold getFile. rewrite decide_False by apply toFileRefKey_nonempty.
  unfold andThen, getState. simpl. by destruct (files this !! _).
Qed.

End StoreEquations.

(** ** The store along a history *)

Section HistoryFacts.

Context {DocInfo : Type}.
Variable disk : Disk.
Implicit Types (this : MemoryDatastore) (h : list (Call DocInfo)) (c : Call DocInfo).

Lemma run_cons c h this : run disk (c :: h) this = run disk h (exec disk c this).
Proof. reflexivity. Qed.

Lemma run_app h1 h2 this : run disk (h1 ++ h2)%list this = run disk h2 (run disk h1 this).
Proof. unfold run. apply foldl_app. Qed.

(** Only a successful [write] changes [docMetas]. *)
Lemma exec_docMetas c this :
  docMetas (exec disk c this)
  = match c with
    | CallWrite f d _ =>
        if bool_decide (typeof d = "string")
        then setProperty f d (docMetas this) else docMetas this
    | _ => docMetas this
    end.
Proof.
  destruct c as [f|r|b r d m|b r|b r|b r|f|f d di|]; simpl; try reflexivity.
  - by rewrite delete_eq.
  - unfold writeFile, andThen, readFileAsync.
    destruct d as [s|bf|p]; simpl; try reflexivity.
    by destruct (disk !! p).
  - by rewrite getFile_eq.
  - case_bool_decide as Hty.
    + apply typeof_string in Hty as [s ->]. by rewrite write_string.
    + by rewrite write_rejected.
Qed.

(** What a call does to [docMetas], as seen from one fingerprint. *)
Lemma exec_write_cases c this :
  docMetas (exec disk c this) = docMetas this
  ∨ ∃ f d di, c = CallWrite f (VString d) di
              ∧ docMetas (exec disk c this) = setProperty f (VString d) (docMetas this).
Proof.
  rewrite exec_docMetas.
  destruct c as [f|r|b r d m|b r|b r|b r|f|f d di|]; try by left.
  case_bool_decide as Hty; [|by left].
  apply typeof_string in Hty as [s ->]. right. eauto.
Qed.

Lemma run_prototype h this :
  prototype (docMetas (run disk h this)) = prototype (docMetas this).
Proof.
  revert this. induction h as [|c h IH]; intros this; [done|].
  rewrite run_cons, IH.
  destruct (exec_write_cases c this) as [->|(f & d & di & _ & ->)]; [done|].
  apply prototype_setProperty_string.
Qed.

Lemma run_inherits (f : string) h this :
  inherits f (docMetas (run disk h this)) = inherits f (docMetas this).
Proof. unfold inherits. by rewrite run_prototype. Qed.

Lemma exec_inherits (f : string) c this :
  inherits f (docMetas (exec disk c this)) = inherits f (docMetas this).
Proof.
  destruct (exec_write_cases c this) as [->|(g & d & di & _ & ->)]; [done|].
  apply inherits_setProperty_string.
Qed.

(** A fingerprint is an own property after a history when it was one
    before, or when it was successfully written and the assignment did not
    go to the inherited setter. *)
Lemma run_hasOwnProperty (f : string) h this :
  hasOwnProperty f (docMetas (run disk h this))
  = hasOwnProperty f (docMetas this)
    || written_in f h
       && negb (String.eqb f "__proto__" && inherits f (docMetas this)).
Proof.
  revert this. induction h as [|c h IH]; intros this.
  { simpl. by rewrite orb_false_r. }
  rewrite run_cons, IH, exec_inherits, exec_docMetas. clear IH.
  destruct c as [?|?|? ? ? ?|? ?|? ?|? ?|?|g d di|]; try reflexivity.
  cbn [written_in existsb writes_to].
  destruct (decide (typeof d = "string")) as [Hty|Hty].
  - rewrite !(bool_decide_eq_true_2 _ Hty), andb_true_r.
    apply typeof_string in Hty as [s ->].
    destruct (decide (g = f)) as [->|Hne].
    + rewrite hasOwnProperty_set_eq, (bool_decide_eq_true_2 (f = f)) by done.
      unfold reachesSetter. fold (written_in f h).
      destruct (hasOwnProperty f (docMetas this)), (String.eqb f "__proto__"),
        (inherits f (docMetas this)), (written_in f h); done.
    + by rewrite hasOwnProperty_set_ne, (bool_decide_eq_false_2 _ Hne) by done.
  - by rewrite !(bool_decide_eq_false_2 _ Hty), andb_false_r.
Qed.

(** For a fingerprint other than [__proto__], a read after a history gives
    the payload of the latest successful write, or what it gave before. *)
Lemma run_last_written (f : string) h this :
  f ≠ "__proto__" ->
  getProperty f (docMetas (run disk h this))
  = last_written f h (getProperty f (docMetas this)).
Proof.
  intros Hf. revert this. induction h as [|c h IH]; intros this; [done|].
  rewrite run_cons, IH, exec_docMetas. clear IH.
  destruct c as [?|?|? ? ? ?|? ?|? ?|? ?|?|g d di|]; try reflexivity.
  cbn [last_written].
  destruct (decide (typeof d = "string")) as [Hty|Hty].
  - rewrite !(bool_decide_eq_true_2 _ Hty), andb_true_r.
    apply typeof_string in Hty as [s ->].
    destruct (decide (g = f)) as [->|Hne].
    + by rewrite getProperty_set_eq, (bool_decide_eq_true_2 (f = f)).
    + by rewrite getProperty_set_ne, (bool_decide_eq_false_2 _ Hne).
  - by rewrite !(bool_decide_eq_false_2 _ Hty), andb_false_r.
Qed.

Lemma inherits_new (f : string) :
  inherits f (docMetas new_MemoryDatastore) = inherited_name f.
Proof. reflexivity. Qed.

Lemma hasOwnProperty_run_new (f : string) h :
  hasOwnProperty f (docMetas (run disk h new_MemoryDatastore))
  = written_in f h && negb (String.eqb f "__proto__").
Proof.
  rewrite run_hasOwnProperty, inherits_new. cbn [orb].
  change (hasOwnProperty f (docMetas new_MemoryDatastore)) with false. cbn [orb].
  destruct (String.eqb f "__proto__") eqn:E; [|done].
  apply String.eqb_eq in E as ->. reflexivity.
Qed.

Lemma contains_run (f : string) h :
  contains f (run disk h new_MemoryDatastore)
  = (Ok (written_in f h || inherited_name f), run disk h new_MemoryDatastore).
Proof.
  rewrite contains_eq. unfold hasProperty.
  rewrite hasOwnProperty_run_new, run_inherits, inherits_new.
  do 2 f_equal. destruct (String.eqb f "__proto__") eqn:E.
  - apply String.eqb_eq in E as ->. by rewrite !orb_true_r.
  - by rewrite andb_true_r.
Qed.

End HistoryFacts.

(** ** Document metadata: write, read, existence *)

Lemma last_written_snoc {DocInfo : Type} (f d : string) (di : DocInfo)
    (h : list (Call DocInfo)) (before : JSValue) :
  last_written f (h ++ [CallWrite f (VString d) di])%list before = VString d.
Proof.
  revert before. induction h as [|c h IH]; intros before.
  - simpl. by rewrite bool_decide_eq_true_2.
  - destruct c; simpl; apply IH.
Qed.

(** C1 — Round trip, at the fingerprint ["__proto__"].  On a new store a
    [write] under ["__proto__"] with a string payload succeeds and resolves
    its mutation, but stores nothing: the assignment goes to the setter the
    store's object inherits, which ignores a string.  The [getDocMeta] that
    follows returns [Object.prototype], not the payload. *)
Theorem write_under_proto_is_lost {DocInfo : Type} (d : string) (di : DocInfo)
    (m : DatastoreMutation) :
  let st := snd (write "__proto__" (VString d) di (new_MemoryDatastore, m)) in
  fst (write "__proto__" (VString d) di (new_MemoryDatastore, m)) = Ok tt
  ∧ fst st = new_MemoryDatastore
  ∧ fst (getDocMeta "__proto__" (fst st)) = Ok ObjectPrototype
  ∧ fst (getDocMeta "__proto__" (fst st)) ≠ Ok (VString d).
Proof.
  rewrite write_string. cbn [fst snd]. split; [done|]. split; [done|].
  split; [done|]. discriminate.
Qed.

Lemma contains_after_write {DocInfo : Type} (f d : string) (di : DocInfo)
    (this : MemoryDatastore) (m : DatastoreMutation) :
  fst (contains f (fst (snd (write f (VString d) di (this, m))))) = Ok true.
Proof.
  rewrite write_string, contains_eq. cbn [fst snd set_docMetas docMetas].
  by rewrite hasProperty_set_eq.
Qed.

Lemma contains_before_any_write {DocInfo : Type} (disk : Disk) (f : string)
    (h : list (Call DocInfo)) :
  written_in f h = false ->
  inherited_name f = false ->
  fst (contains f (run disk h new_MemoryDatastore)) = Ok false.
Proof. intros Hnw Hni. by rewrite contains_run, Hnw, Hni. Qed.

(** C2 — Existence after delete.  [contains f] is [true] right after a
    successful [write f]; a [delete] of a reference with fingerprint [f]
    then succeeds and reports [deleted = true] for both targets, and the
    [contains f] that follows still returns [true]: the record is not
    removed. *)
Theorem contains_still_true_after_delete {DocInfo : Type}
    (f d : string) (di : DocInfo) (df : option FileRef)
    (this : MemoryDatastore) (m : DatastoreMutation) :
  let stored := fst (snd (write f (VString d) di (this, m))) in
  let r := {| fingerprint := f; docFile := df |} in
  fst (contains f stored) = Ok true
  ∧ fst (delete r stored)
    = Ok {| docMetaFile := {| path := "/" ++ f ++ ".json"; deleted := true |};
            dataFile := {| path := "/" ++ ToString (df ≫= name); deleted := true |} |}
  ∧ fst (contains f (snd (delete r stored))) = Ok true.
Proof.
  intros stored r.
  assert (Hin : hasProperty f (docMetas stored) = true).
  { subst stored. rewrite write_string. cbn [fst snd set_docMetas docMetas].
    apply hasProperty_set_eq. }
  split; [apply contains_after_write|].
  rewrite delete_eq. subst r. cbn [fingerprint docFile fst snd].
  rewrite Hin. split; [done|].
  rewrite contains_eq. cbn [fst]. by rewrite Hin.
Qed.

(** ** The mutation of a write *)

(** C3 — Mutation ordering.  A successful [write] makes exactly two
    [resolve] calls on the mutation it was given: first on [written], then
    on [committed], each with [true].  On a mutation that was unresolved
    before the call, each future is thus resolved exactly once, to [true],
    and [written] is resolved before [committed]. *)
Theorem write_resolves_written_then_committed {DocInfo : Type}
    (f d : string) (di : DocInfo) (this : MemoryDatastore) (m : DatastoreMutation) :
  let m' := snd (snd (write f (VString d) di (this, m))) in
  let fresh := snd (snd (write f (VString d) di (this, DefaultDatastoreMutation))) in
  fst (write f (VString d) di (this, m)) = Ok tt
  ∧ m' = (m ++ [ {| future := written; value := true |};
                 {| future := committed; value := true |} ])%list
  ∧ resolutions written fresh = [true]
  ∧ resolutions committed fresh = [true]
  ∧ resolvedAt written fresh = Some 0
  ∧ resolvedAt committed fresh = Some 1.
Proof.
  rewrite !write_string. simpl. repeat split; reflexivity.
Qed.

(** C4 — Type check before mutation.  A [write] whose payload is not a
    string fails with [TypeMismatchError] and changes nothing: the store
    and the mutation are as before the call, so [getDocMeta] and [contains]
    answer as before for every fingerprint and no future is resolved. *)
Theorem write_non_string_fails_before_mutation {DocInfo : Type}
    (f : string) (data : JSValue) (di : DocInfo)
    (this : MemoryDatastore) (m : DatastoreMutation) :
  typeof data ≠ "string" ->
  let st := snd (write f data di (this, m)) in
  fst (write f data di (this, m)) = Err TypeMismatchError
  ∧ fst st = this
  ∧ snd st = m
  ∧ (∀ g, getDocMeta g (fst st) = getDocMeta g this)
  ∧ (∀ g, contains g (fst st) = contains g this)
  ∧ resolutions written (snd st) = resolutions written m
  ∧ resolutions committed (snd st) = resolutions committed m.
Proof.
  intros Hty. rewrite write_rejected by done. simpl. repeat split; reflexivity.
Qed.

Lemma write_non_string_fails_before_mutation_witness :
  typeof (VNumber 42) ≠ "string"
  ∧ write "doc1" (VNumber 42) tt (new_MemoryDatastore, DefaultDatastoreMutation)
    = (Err TypeMismatchError, (new_MemoryDatastore, DefaultDatastoreMutation)).
Proof.
  assert (Hty : typeof (VNumber 42) ≠ "string") by discriminate.
  split; [exact Hty|].
  pose proof (write_non_string_fails_before_mutation "doc1" (VNumber 42) tt
                new_MemoryDatastore DefaultDatastoreMutation Hty) as (H1 & H2 & H3 & _).
  destruct (write "doc1" (VNumber 42) tt (new_MemoryDatastore, DefaultDatastoreMutation))
    as [res [s mu]].
  simpl in *. by subst.
Defined.

(** ** Files *)

Section Files.

Variable disk : Disk.
Implicit Types (this : MemoryDatastore) (b : Backend) (r : FileRef).

Lemma writeFile_eq b r (data : FileInput) (fm : FileMeta) this :
  writeFile disk b r data fm this
  = match stored_bytes disk data with
    | Some buf =>
        (Ok {| file_backend := b; file_ref := r; url := "FIXME:none"; file_meta := fm |},
         set_files <[toFileRefKey b r := {| buffer := buf; meta := fm |}]> this)
    | None => (Err IOError, this)
    end.
Proof.
  unfold writeFile, andThen, readFileAsync.
  destruct data as [s|bf|p]; simpl; try reflexivity.
  by destruct (disk !! p).
Qed.

Lemma containsFile_eq b r this :
  containsFile b r this = (Ok (isPresent (files this !! toFileRefKey b r)), this).
Proof. reflexivity. Qed.

Lemma deleteFile_eq b r this :
  deleteFile b r this = (Ok tt, set_files (base.delete (toFileRefKey b r)) this).
Proof. reflexivity. Qed.

(** A [writeFile] touches no key but its own. *)
Lemma writeFile_other_key b r (data : FileInput) (fm : FileMeta) this (k : string) :
  k ≠ toFileRefKey b r ->
  files (snd (writeFile disk b r data fm this)) !! k = files this !! k.
Proof.
  intros Hne. rewrite writeFile_eq.
  destruct (stored_bytes disk data); simpl; [|done].
  by rewrite lookup_insert_ne.
Qed.

End Files.

(** ** Unknown lookups *)

Lemma getProperty_absent (f : string) (o : JsObject) :
  hasOwnProperty f o = false -> inherits f o = false -> getProperty f o = VUndefined.
Proof.
  unfold hasOwnProperty, inherits, getProperty. intros Ho Hi.
  destruct (assoc_lookup f (own o)); [discriminate|].
  by destruct (assoc_lookup f (members_of (prototype o))).
Qed.

Lemma getProperty_own (f : string) (v : JSValue) (o : JsObject) :
  assoc_lookup f (own o) = Some v -> getProperty f o = v.
Proof. unfold getProperty. by intros ->. Qed.

Section UnknownLookups.

Context {DocInfo : Type}.
Variable disk : Disk.
Implicit Types (this : MemoryDatastore) (h : list (Call DocInfo)) (c : Call DocInfo).

Lemma getDocMeta_never_written (f : string) h :
  written_in f h = false ->
  inherited_name f = false ->
  getDocMeta f (run disk h new_MemoryDatastore)
  = (Ok VUndefined, run disk h new_MemoryDatastore).
Proof.
  intros Hnw Hni. rewrite getDocMeta_eq. do 2 f_equal. apply getProperty_absent.
  - by rewrite hasOwnProperty_run_new, Hnw.
  - by rewrite run_inherits, inherits_new.
Qed.

Lemma exec_files_none (b : Backend) (r : FileRef) c this :
  writes_file disk b r c = false ->
  files this !! toFileRefKey b r = None ->
  files (exec disk c this) !! toFileRefKey b r = None.
Proof.
  intros Hw Hnone.
  destruct c as [f|dr|b' r' d m|b' r'|b' r'|b' r'|f|f d di|]; simpl; try done.
  - by rewrite delete_eq.
  - simpl in Hw. rewrite writeFile_eq.
    destruct (stored_bytes disk d) as [buf|]; [|done].
    simpl in *. rewrite andb_true_r in Hw. apply bool_decide_eq_false in Hw.
    by rewrite lookup_insert_ne.
  - by rewrite getFile_eq.
  - apply lookup_delete_None. by right.
  - destruct (decide (typeof d = "string")) as [Hty|Hty].
    + apply typeof_string in Hty as [s ->]. by rewrite write_string.
    + by rewrite write_rejected.
Qed.

Lemma run_files_none (b : Backend) (r : FileRef) h this :
  file_written_in disk b r h = false ->
  files this !! toFileRefKey b r = None ->
  files (run disk h this) !! toFileRefKey b r = None.
Proof.
  revert this. induction h as [|c h IH]; intros this Hw Hnone; [done|].
  simpl in Hw. apply orb_false_elim in Hw as [Hc Hh].
  rewrite run_cons. apply IH; [done|]. by apply exec_files_none.
Qed.

(** A [getFile] under a key that holds nothing is rejected. *)
Lemma getFile_missing (b : Backend) (r : FileRef) this :
  files this !! toFileRefKey b r = None ->
  getFile b r this = (Err TypeError, this).
Proof. intros Hnone. by rewrite getFile_eq, Hnone. Qed.

Lemma getFile_never_written (b : Backend) (r : FileRef) h :
  file_written_in disk b r h = false ->
  getFile b r (run disk h new_MemoryDatastore)
  = (Err TypeError, run disk h new_MemoryDatastore).
Proof.
  intros Hnw. apply getFile_missing, run_files_none; [done|]. apply lookup_empty.
Qed.

End UnknownLookups.

(** C5 — Unknown lookups.  On a store on which nothing was written,
    [getDocMeta "doc1"] is fulfilled with [undefined], but
    [getFile "stash" {name: "x"}] is rejected with a [TypeError] instead
    of being fulfilled with an empty optional: the guard of [getFile] tests
    the key, which is never empty, and the entry read under it is
    [undefined]. *)
Theorem getFile_unknown_key_rejected :
  getDocMeta "doc1" new_MemoryDatastore = (Ok VUndefined, new_MemoryDatastore)
  ∧ getFile "stash" {| name := Some "x" |} new_MemoryDatastore
    = (Err TypeError, new_MemoryDatastore)
  ∧ getFile "stash" {| name := Some "x" |} new_MemoryDatastore
    ≠ (Ok Optional.empty, new_MemoryDatastore).
Proof.
  split; [reflexivity|]. split; [|intros H; discriminate H].
  apply getFile_missing, lookup_empty.
Qed.

(** ** Delete *)

(** The scenario of the contract on a new store: write ["doc1"], read it
    back, list it, delete it, and ask for it again. *)
Example scenario_doc1 :
  let payload := "{title:A}" in
  let s1 := fst (snd (write "doc1" (VString payload) tt
                        (new_MemoryDatastore, DefaultDatastoreMutation))) in
  let r := {| fingerprint := "doc1"; docFile := None |} in
  fst (getDocMeta "doc1" s1) = Ok (VString payload)
  ∧ fst (getDocMetaFiles s1) = Ok [ {| ref_fingerprint := "doc1" |} ]
  ∧ fst (delete r s1)
    = Ok {| docMetaFile := {| path := "/doc1.json"; deleted := true |};
            dataFile := {| path := "/undefined"; deleted := true |} |}
  ∧ fst (contains "doc1" (snd (delete r s1))) = Ok true
  ∧ fst (delete r new_MemoryDatastore)
    = Ok {| docMetaFile := {| path := "/doc1.json"; deleted := false |};
            dataFile := {| path := "/undefined"; deleted := false |} |}.
Proof. vm_compute. repeat split; reflexivity. Qed.

(** C6 — Delete semantics, at a never-written fingerprint that names a
    member of [Object.prototype].  On a new store, on which nothing was
    written, [delete] of a reference with fingerprint ["toString"] reports
    [deleted = true] for both targets: [contains] finds the inherited
    member. *)
Theorem delete_of_inherited_name_reports_deleted (df : option FileRef) :
  written_in (DocInfo := unit) "toString" [] = false
  ∧ fst (delete {| fingerprint := "toString"; docFile := df |} new_MemoryDatastore)
    = Ok {| docMetaFile := {| path := "/toString.json"; deleted := true |};
            dataFile := {| path := "/" ++ ToString (df ≫= name); deleted := true |} |}.
Proof. split; [reflexivity|]. by rewrite delete_eq. Qed.

(** C9 — Delete is a read.  [delete] leaves the store as it was: the same
    [docMetas] and the same [files].  Every [getDocMeta] and
    [getDocMetaFiles] answers after it as before it; in particular a
    record stored under the fingerprint is still returned by [getDocMeta]
    and still listed by [getDocMetaFiles] after it was deleted. *)
Theorem delete_leaves_store_unchanged (r : DocMetaFileRef) (this : MemoryDatastore) :
  snd (delete r this) = this
  ∧ docMetas (snd (delete r this)) = docMetas this
  ∧ files (snd (delete r this)) = files this
  ∧ (∀ g, getDocMeta g (snd (delete r this)) = getDocMeta g this)
  ∧ getDocMetaFiles (snd (delete r this)) = getDocMetaFiles this
  ∧ ∀ v : JSValue,
      assoc_lookup (fingerprint r) (own (docMetas this)) = Some v ->
      fst (getDocMeta (fingerprint r) (snd (delete r this))) = Ok v
      ∧ ∃ refs, fst (getDocMetaFiles (snd (delete r this))) = Ok refs
                ∧ {| ref_fingerprint := fingerprint r |} ∈ refs.
Proof.
  rewrite !delete_eq. cbn [snd]. repeat (split; [done|]).
  intros v Hv. split.
  - rewrite getDocMeta_eq. cbn [fst]. f_equal. by apply getProperty_own.
  - eexists. split; [reflexivity|].
    apply list_elem_of_fmap. exists (fingerprint r). split; [done|].
    apply elem_of_ownKeys. unfold hasOwnProperty. by rewrite Hv.
Qed.

Lemma delete_leaves_store_unchanged_witness :
  let r := {| fingerprint := "doc1"; docFile := None |} in
  let this := {| docMetas := {| own := [("doc1", VString "x")];
                                prototype := ObjectPrototype |};
                 files := ∅ |} in
  assoc_lookup (fingerprint r) (own (docMetas this)) = Some (VString "x")
  ∧ snd (delete r this) = this
  ∧ fst (getDocMeta "doc1" (snd (delete r this))) = Ok (VString "x").
Proof.
  intros r this. split; [reflexivity|].
  destruct (delete_leaves_store_unchanged r this) as (Hs & _ & _ & _ & _ & Hv).
  split; [exact Hs|]. exact (proj1 (Hv (VString "x") eq_refl)).
Defined.

(** C10 — Path of a missing document file.  For a reference without a
    [docFile], [delete] succeeds and the [dataFile] path of its result is
    the string ["/undefined"]. *)
Theorem delete_dataFile_path_undefined (fp : string) (this : MemoryDatastore) :
  ∃ res : DeleteResult,
    fst (delete {| fingerprint := fp; docFile := None |} this) = Ok res
    ∧ path (dataFile res) = "/undefined".
Proof. rewrite delete_eq. eexists. split; reflexivity. Qed.

(** ** File keys *)

(** C7, as stated, fails: what [getFile] returns does not hold the stored
    content.  No function of the returned descriptor gives the bytes that
    were written: two stores that hold different bytes under the same key,
    with the same metadata, answer [getFile] alike. *)
Lemma getFile_does_not_return_content :
  ¬ (∃ content_of : DatastoreFile -> Buffer,
       ∀ (data : FileInput) (buf : Buffer),
         stored_bytes ∅ data = Some buf ->
         ∃ file,
           fst (getFile "stash" {| name := Some "x" |}
                  (snd (writeFile ∅ "stash" {| name := Some "x" |} data ∅
                          new_MemoryDatastore)))
           = Ok (Some file)
           ∧ content_of file = buf).
Proof.
  intros [content_of Hc].
  destruct (Hc (DataString "one") (Buffer_from "one") eq_refl) as (f1 & Hf1 & Hb1).
  destruct (Hc (DataString "two") (Buffer_from "two") eq_refl) as (f2 & Hf2 & Hb2).
  rewrite getFile_eq, writeFile_eq in Hf1, Hf2. simpl in Hf1, Hf2.
  rewrite lookup_insert_eq in Hf1, Hf2. simpl in Hf1, Hf2.
  injection Hf1 as <-. injection Hf2 as <-.
  rewrite Hb1 in Hb2. discriminate Hb2.
Qed.

(** C7 (amended) — File key isolation.  For two distinct backends [A] and
    [B] and one reference, the two keys differ.  After [writeFile] under
    [A] and then under [B], both of which succeed when their data can be
    read, the store holds under each key the bytes and the metadata written
    under its own backend, and [getFile] under each backend is fulfilled
    with a descriptor that carries that backend, the reference and the
    metadata written under it (the descriptor has no content).  A
    [writeFile] under one backend leaves the entry under the other as it
    was. *)
Theorem writeFile_backends_do_not_collide (disk : Disk) (A B : Backend) (r : FileRef)
    (dataA dataB : FileInput) (metaA metaB : FileMeta) (bufA bufB : Buffer)
    (this : MemoryDatastore) :
  A ≠ B ->
  stored_bytes disk dataA = Some bufA ->
  stored_bytes disk dataB = Some bufB ->
  let s1 := snd (writeFile disk A r dataA metaA this) in
  let s2 := snd (writeFile disk B r dataB metaB s1) in
  toFileRefKey A r ≠ toFileRefKey B r
  ∧ fst (writeFile disk A r dataA metaA this)
    = Ok {| file_backend := A; file_ref := r; url := "FIXME:none"; file_meta := metaA |}
  ∧ fst (writeFile disk B r dataB metaB s1)
    = Ok {| file_backend := B; file_ref := r; url := "FIXME:none"; file_meta := metaB |}
  ∧ files s2 !! toFileRefKey A r = Some {| buffer := bufA; meta := metaA |}
  ∧ files s2 !! toFileRefKey B r = Some {| buffer := bufB; meta := metaB |}
  ∧ fst (getFile A r s2)
    = Ok (Some {| file_backend := A; file_ref := r; url := "FIXME:none";
                  file_meta := metaA |})
  ∧ fst (getFile B r s2)
    = Ok (Some {| file_backend := B; file_ref := r; url := "FIXME:none";
                  file_meta := metaB |})
  ∧ (∀ s data fm,
       files (snd (writeFile disk B r data fm s)) !! toFileRefKey A r
       = files s !! toFileRefKey A r)
  ∧ (∀ s data fm,
       files (snd (writeFile disk A r data fm s)) !! toFileRefKey B r
       = files s !! toFileRefKey B r).
Proof.
  intros Hne HA HB s1 s2.
  assert (Hkey : toFileRefKey A r ≠ toFileRefKey B r).
  { intros Heq. by apply Hne, (toFileRefKey_inj_backend A B r). }
  assert (H1 : files s1 !! toFileRefKey A r = Some {| buffer := bufA; meta := metaA |}).
  { subst s1. rewrite writeFile_eq, HA. simpl. apply lookup_insert_eq. }
  assert (H2A : files s2 !! toFileRefKey A r = Some {| buffer := bufA; meta := metaA |}).
  { subst s2. by rewrite writeFile_other_key. }
  assert (H2B : files s2 !! toFileRefKey B r = Some {| buffer := bufB; meta := metaB |}).
  { subst s2. rewrite writeFile_eq, HB. simpl. apply lookup_insert_eq. }
  split; [done|].
  split; [by rewrite writeFile_eq, HA|].
  split; [by rewrite writeFile_eq, HB|].
  split; [done|]. split; [done|].
  split; [by rewrite getFile_eq, H2A|].
  split; [by rewrite getFile_eq, H2B|].
  split; intros s data fm; by apply writeFile_other_key.
Qed.

Lemma writeFile_backends_do_not_collide_witness :
  let r := {| name := Some "x" |} in
  let s1 := snd (writeFile ∅ "stash" r (DataString "a") {[ "k" := "1" ]}
                   new_MemoryDatastore) in
  let s2 := snd (writeFile ∅ "logs" r (DataString "b") {[ "k" := "2" ]} s1) in
  "stash" ≠ "logs"
  ∧ fst (getFile "stash" r s2)
    = Ok (Some {| file_backend := "stash"; file_ref := r; url := "FIXME:none";
                  file_meta := {[ "k" := "1" ]} |})
  ∧ fst (getFile "logs" r s2)
    = Ok (Some {| file_backend := "logs"; file_ref := r; url := "FIXME:none";
                  file_meta := {[ "k" := "2" ]} |}).
Proof.
  intros r s1 s2.
  assert (Hne : "stash" ≠ "logs") by discriminate.
  split; [exact Hne|].
  pose proof (writeFile_backends_do_not_collide ∅ "stash" "logs" r
                (DataString "a") (DataString "b") {[ "k" := "1" ]} {[ "k" := "2" ]}
                (Buffer_from "a") (Buffer_from "b") new_MemoryDatastore
                Hne eq_refl eq_refl) as (_ & _ & _ & _ & _ & HgA & HgB & _).
  split; [exact HgA | exact HgB].
Defined.

(** C8, as stated, fails: a reference without a name is not rejected.  Its
    key is the key of the reference named ["undefined"]; [writeFile] with it
    succeeds, and the file it wrote is then found under the well-formed
    reference. *)
Lemma malformed_ref_is_not_rejected :
  let bad := {| name := None |} in
  let good := {| name := Some "undefined" |} in
  let s := snd (writeFile ∅ "stash" bad (DataString "a") ∅ new_MemoryDatastore) in
  fst (writeFile ∅ "stash" bad (DataString "a") ∅ new_MemoryDatastore)
    = Ok {| file_backend := "stash"; file_ref := bad; url := "FIXME:none";
            file_meta := ∅ |}
  ∧ fst (writeFile ∅ "stash" bad (DataString "a") ∅ new_MemoryDatastore)
    ≠ Err InvalidKeyError
  ∧ toFileRefKey "stash" bad = toFileRefKey "stash" good
  ∧ fst (containsFile "stash" good new_MemoryDatastore) = Ok false
  ∧ fst (containsFile "stash" good s) = Ok true.
Proof.
  intros bad good s. subst s. rewrite writeFile_eq. cbn [stored_bytes fst snd].
  split; [done|]. split; [discriminate|]. split; [reflexivity|].
  split; [reflexivity|].
  rewrite containsFile_eq. cbn [fst set_files files].
  change (toFileRefKey "stash" good) with (toFileRefKey "stash" bad).
  by rewrite lookup_insert_eq.
Qed.

(** C8 (amended) — Key derivation.  For a well-formed pair the key is the
    backend, a colon and the name.  A reference object whose name is missing
    is not rejected: its key is the backend followed by [":undefined"], the
    key of the well-formed reference named ["undefined"], so the file
    operations treat the two references as one file: [writeFile] leaves the
    same store, [containsFile], [getFile] and [deleteFile] answer and act
    alike, and a file written through one is found through the other.  No
    file operation on a reference object fails with [InvalidKeyError]. *)
Theorem missing_name_shares_key_of_undefined (disk : Disk) (b : Backend)
    (r : FileRef) (x : string) (data : FileInput) (fm : FileMeta)
    (this : MemoryDatastore) :
  let bad := {| name := None |} in
  let good := {| name := Some "undefined" |} in
  toFileRefKey b {| name := Some x |} = b ++ ":" ++ x
  ∧ toFileRefKey b bad = toFileRefKey b good
  ∧ snd (writeFile disk b bad data fm this) = snd (writeFile disk b good data fm this)
  ∧ is_ok (fst (writeFile disk b bad data fm this)) = isPresent (stored_bytes disk data)
  ∧ fst (containsFile b bad this) = fst (containsFile b good this)
  ∧ is_ok (fst (getFile b bad this)) = is_ok (fst (getFile b good this))
  ∧ snd (deleteFile b bad this) = snd (deleteFile b good this)
  ∧ fst (containsFile b good (snd (writeFile disk b bad data fm this)))
    = Ok (isPresent (stored_bytes disk data)
          || isPresent (files this !! toFileRefKey b good))
  ∧ fst (writeFile disk b r data fm this) ≠ Err InvalidKeyError
  ∧ fst (getFile b r this) ≠ Err InvalidKeyError
  ∧ fst (containsFile b r this) ≠ Err InvalidKeyError
  ∧ fst (deleteFile b r this) ≠ Err InvalidKeyError.
Proof.
  intros bad good.
  assert (Hkey : toFileRefKey b bad = toFileRefKey b good) by reflexivity.
  split; [reflexivity|]. split; [exact Hkey|].
  rewrite !writeFile_eq, !getFile_eq, !containsFile_eq, !deleteFile_eq, Hkey.
  cbn [fst snd].
  split; [by destruct (stored_bytes disk data)|].
  split; [by destruct (stored_bytes disk data)|].
  split; [done|].
  split; [by destruct (files this !! toFileRefKey b good)|].
  split; [done|].
  split.
  { destruct (stored_bytes disk data) as [buf|]; cbn [snd set_files files isPresent orb].
    - by rewrite lookup_insert_eq.
    - done. }
  split; [by destruct (stored_bytes disk data)|].
  split; [by destruct (files this !! toFileRefKey b r)|].
  split; discriminate.
Qed.

(** * Further properties of the store *)

(** ** Files: write, read, delete *)

Lemma set_files_id (this : MemoryDatastore) (f : gmap string FileData -> gmap string FileData) :
  f (files this) = files this -> set_files f this = this.
Proof. destruct this as [dm fs]. unfold set_files. simpl. by intros ->. Qed.

(** X1 — After a [writeFile] whose data can be read, the store holds the bytes
    and the metadata under the key, [containsFile] answers [true], and
    [getFile] is fulfilled with the descriptor [writeFile] returned;
    whatever the key held before is replaced. *)
Theorem writeFile_getFile_round_trip (disk : Disk) (b : Backend) (r : FileRef)
    (data : FileInput) (fm : FileMeta) (buf : Buffer) (this : MemoryDatastore) :
  stored_bytes disk data = Some buf ->
  let s := snd (writeFile disk b r data fm this) in
  ∃ file : DatastoreFile,
    fst (writeFile disk b r data fm this) = Ok file
    ∧ files s !! toFileRefKey b r = Some {| buffer := buf; meta := fm |}
    ∧ fst (containsFile b r s) = Ok true
    ∧ fst (getFile b r s) = Ok (Some file)
    ∧ file_backend file = b ∧ file_ref file = r ∧ file_meta file = fm.
Proof.
  intros Hbuf s. subst s. rewrite writeFile_eq, Hbuf. cbn [fst snd].
  eexists. split; [reflexivity|].
  assert (Hk : files (set_files <[toFileRefKey b r := {| buffer := buf; meta := fm |}]> this)
               !! toFileRefKey b r = Some {| buffer := buf; meta := fm |}).
  { simpl. apply lookup_insert_eq. }
  split; [exact Hk|].
  rewrite containsFile_eq, getFile_eq, Hk. by repeat split.
Qed.

Lemma writeFile_getFile_round_trip_witness :
  ∃ file : DatastoreFile,
    fst (getFile "stash" {| name := Some "a.pdf" |}
           (snd (writeFile ∅ "stash" {| name := Some "a.pdf" |} (DataString "pdf")
                   {[ "type" := "pdf" ]} new_MemoryDatastore)))
    = Ok (Some file)
    ∧ file_meta file = {[ "type" := "pdf" ]}.
Proof.
  destruct (writeFile_getFile_round_trip ∅ "stash" {| name := Some "a.pdf" |}
              (DataString "pdf") {[ "type" := "pdf" ]} (Buffer_from "pdf")
              new_MemoryDatastore eq_refl) as (file & _ & _ & _ & Hg & _ & _ & Hm).
  exists file. split; [exact Hg | exact Hm].
Defined.

(** X2 — A [writeFile] from a handle whose path cannot be read is rejected with
    the error of the read, and stores nothing: the store is as before. *)
Theorem writeFile_unreadable_handle_stores_nothing (disk : Disk) (b : Backend)
    (r : FileRef) (p : string) (fm : FileMeta) (this : MemoryDatastore) :
  disk !! p = None ->
  writeFile disk b r (DataHandle p) fm this = (Err IOError, this)
  ∧ fst (containsFile b r (snd (writeFile disk b r (DataHandle p) fm this)))
    = fst (containsFile b r this).
Proof.
  intros Hp. rewrite writeFile_eq. simpl. by rewrite Hp.
Qed.

Lemma writeFile_unreadable_handle_stores_nothing_witness :
  writeFile ∅ "stash" {| name := Some "a.pdf" |} (DataHandle "/tmp/a.pdf") ∅
    new_MemoryDatastore
  = (Err IOError, new_MemoryDatastore).
Proof.
  exact (proj1 (writeFile_unreadable_handle_stores_nothing ∅ "stash"
                  {| name := Some "a.pdf" |} "/tmp/a.pdf" ∅ new_MemoryDatastore
                  (lookup_empty _))).
Defined.

(** X3 — [deleteFile] always succeeds.  After it [containsFile] answers
    [false] and [getFile] is rejected, and a second [deleteFile] changes
    nothing more. *)
Theorem deleteFile_removes_and_is_idempotent (b : Backend) (r : FileRef)
    (this : MemoryDatastore) :
  let s := snd (deleteFile b r this) in
  fst (deleteFile b r this) = Ok tt
  ∧ fst (containsFile b r s) = Ok false
  ∧ fst (getFile b r s) = Err TypeError
  ∧ deleteFile b r s = (Ok tt, s).
Proof.
  intros s. subst s. rewrite !deleteFile_eq. cbn [fst snd].
  assert (Hk : files (set_files (base.delete (toFileRefKey b r)) this)
               !! toFileRefKey b r = None).
  { simpl. apply lookup_delete_eq. }
  split; [done|]. rewrite containsFile_eq, getFile_eq, Hk.
  split; [done|]. split; [done|].
  f_equal. apply set_files_id. by apply delete_id.
Qed.

(** X4 — Deleting a file under a key that holds nothing is not an error and
    leaves the store exactly as it was. *)
Theorem deleteFile_absent_is_noop (b : Backend) (r : FileRef) (this : MemoryDatastore) :
  files this !! toFileRefKey b r = None ->
  deleteFile b r this = (Ok tt, this).
Proof.
  intros Hnone. rewrite deleteFile_eq. f_equal. apply set_files_id. by apply delete_id.
Qed.

Lemma deleteFile_absent_is_noop_witness :
  deleteFile "stash" {| name := Some "a.pdf" |} new_MemoryDatastore
  = (Ok tt, new_MemoryDatastore).
Proof.
  exact (deleteFile_absent_is_noop "stash" {| name := Some "a.pdf" |}
           new_MemoryDatastore (lookup_empty _)).
Defined.

(** X5 — Writing a file under a key that held nothing and deleting it again
    gives back the store as it was before the two calls. *)
Theorem writeFile_then_deleteFile_restores (disk : Disk) (b : Backend) (r : FileRef)
    (data : FileInput) (fm : FileMeta) (this : MemoryDatastore) :
  files this !! toFileRefKey b r = None ->
  snd (deleteFile b r (snd (writeFile disk b r data fm this))) = this.
Proof.
  intros Hnone. rewrite deleteFile_eq, writeFile_eq. cbn [snd].
  destruct (stored_bytes disk data) as [buf|]; cbn [snd].
  - destruct this as [dm fs]. unfold set_files. simpl in *.
    by rewrite delete_insert_id.
  - apply set_files_id. by apply delete_id.
Qed.

Lemma writeFile_then_deleteFile_restores_witness :
  snd (deleteFile "stash" {| name := Some "a.pdf" |}
         (snd (writeFile ∅ "stash" {| name := Some "a.pdf" |} (DataString "pdf") ∅
                 new_MemoryDatastore)))
  = new_MemoryDatastore.
Proof.
  exact (writeFile_then_deleteFile_restores ∅ "stash" {| name := Some "a.pdf" |}
           (DataString "pdf") ∅ new_MemoryDatastore (lookup_empty _)).
Defined.

(** X6 — [writeFile] and [deleteFile] touch one key of [files] only: every
    other key holds what it held, and the document metadata is as it
    was. *)
Theorem file_updates_are_local (disk : Disk) (b : Backend) (r : FileRef)
    (data : FileInput) (fm : FileMeta) (this : MemoryDatastore) (k : string) :
  k ≠ toFileRefKey b r ->
  files (snd (writeFile disk b r data fm this)) !! k = files this !! k
  ∧ files (snd (deleteFile b r this)) !! k = files this !! k
  ∧ docMetas (snd (writeFile disk b r data fm this)) = docMetas this
  ∧ docMetas (snd (deleteFile b r this)) = docMetas this.
Proof.
  intros Hne. rewrite deleteFile_eq, writeFile_eq. cbn [snd].
  destruct (stored_bytes disk data) as [buf|]; simpl;
    rewrite ?lookup_insert_ne, lookup_delete_ne by done; done.
Qed.

Lemma file_updates_are_local_witness :
  files (snd (deleteFile "stash" {| name := Some "a" |}
                (snd (writeFile ∅ "logs" {| name := Some "a" |} (DataString "x") ∅
                        new_MemoryDatastore))))
    !! toFileRefKey "logs" {| name := Some "a" |}
  = Some {| buffer := Buffer_from "x"; meta := ∅ |}.
Proof.
  assert (Hne : toFileRefKey "logs" {| name := Some "a" |}
                ≠ toFileRefKey "stash" {| name := Some "a" |}) by discriminate.
  rewrite (proj1 (proj2 (file_updates_are_local ∅ "stash" {| name := Some "a" |}
                           (DataString "x") ∅ _ _ Hne))).
  reflexivity.
Defined.

(** X7 — [getFile] is fulfilled exactly when [containsFile] answers [true]; it
    is never fulfilled with an empty optional, and it never changes the
    store. *)
Theorem getFile_fulfilled_iff_containsFile (b : Backend) (r : FileRef)
    (this : MemoryDatastore) :
  Ok (is_ok (fst (getFile b r this))) = fst (containsFile b r this)
  ∧ fst (getFile b r this) ≠ Ok Optional.empty
  ∧ snd (getFile b r this) = this.
Proof.
  rewrite getFile_eq, containsFile_eq. cbn [fst snd].
  by destruct (files this !! toFileRefKey b r).
Qed.

(** X8 — A key that no readable [writeFile] of the history was made under is
    not contained, whatever else the history did. *)
Theorem containsFile_never_written {DocInfo : Type} (disk : Disk) (b : Backend)
    (r : FileRef) (h : list (Call DocInfo)) :
  file_written_in disk b r h = false ->
  fst (containsFile b r (run disk h new_MemoryDatastore)) = Ok false.
Proof.
  intros Hnw. rewrite containsFile_eq. cbn [fst].
  by rewrite (run_files_none disk b r h new_MemoryDatastore Hnw (lookup_empty _)).
Qed.

Lemma containsFile_never_written_witness :
  fst (containsFile "stash" {| name := Some "a" |}
         (run ∅ [ CallWriteFile "logs" {| name := Some "a" |} (DataString "x") ∅;
                  CallWrite "a" (VString "x") tt;
                  CallWriteFile "stash" {| name := Some "a" |} (DataHandle "/none") ∅ ]
            new_MemoryDatastore))
  = Ok false.
Proof.
  exact (containsFile_never_written ∅ "stash" {| name := Some "a" |}
           [ CallWriteFile "logs" {| name := Some "a" |} (DataString "x") ∅;
             CallWrite "a" (VString "x") tt;
             CallWriteFile "stash" {| name := Some "a" |} (DataHandle "/none") ∅ ]
           eq_refl).
Defined.

(** ** File keys of colon-free backends *)

Lemma has_colon_append_false (a t : string) :
  has_colon a = false -> has_colon t = false -> has_colon (a ++ t) = false.
Proof.
  intros Ha Ht. induction a as [|c a IH]; [done|].
  change (has_colon (String c (a ++ t)) = false).
  simpl in *. apply orb_false_elim in Ha as [Hc Ha].
  by rewrite Hc, IH.
Qed.

Lemma colon_split_unique (a b x y : string) :
  has_colon a = false -> has_colon b = false ->
  a ++ ":" ++ x = b ++ ":" ++ y -> a = b ∧ x = y.
Proof.
  revert b. induction a as [|c a IH]; intros [|c' b] Ha Hb Heq.
  - by injection Heq.
  - injection Heq as <- _. simpl in Hb. discriminate Hb.
  - injection Heq as -> _. simpl in Ha. discriminate Ha.
  - injection Heq as -> Heq. simpl in Ha, Hb.
    apply orb_false_elim in Ha as [_ Ha]. apply orb_false_elim in Hb as [_ Hb].
    destruct (IH b Ha Hb Heq) as [-> ->]. done.
Qed.

(** X9 — For backends whose names hold no colon, the key tells the backend and
    the name apart: two references with names get the same key only if
    they have the same backend and the same name. *)
Theorem toFileRefKey_injective_without_colon (a b : Backend) (x y : string) :
  has_colon a = false ->
  has_colon b = false ->
  toFileRefKey a {| name := Some x |} = toFileRefKey b {| name := Some y |} ->
  a = b ∧ x = y.
Proof. unfold toFileRefKey. simpl. apply colon_split_unique. Qed.

Lemma toFileRefKey_injective_without_colon_witness :
  toFileRefKey "stash" {| name := Some "a:b" |} = "stash:a:b"
  ∧ ("stash" = "stash" ∧ "a:b" = "a:b").
Proof.
  split; [reflexivity|].
  exact (toFileRefKey_injective_without_colon "stash" "stash" "a:b" "a:b"
           eq_refl eq_refl eq_refl).
Defined.

(** ** Document metadata: invariants and composition *)

Lemma last_written_cases {DocInfo : Type} (f : string) (h : list (Call DocInfo))
    (before : JSValue) :
  (written_in f h = false ∧ last_written f h before = before)
  ∨ (written_in f h = true ∧ ∃ d, last_written f h before = VString d).
Proof.
  revert before. induction h as [|c h IH]; intros before; [by left|].
  destruct c as [g|r|b r d m|b r|b r|b r|g|g d di|]; simpl; try apply IH.
  destruct (bool_decide (g = f) && bool_decide (typeof d = "string")) eqn:Hw; simpl.
  - right. split; [done|].
    apply andb_true_iff in Hw as [_ Hty]. apply bool_decide_eq_true in Hty.
    apply typeof_string in Hty as [s ->].
    destruct (IH (VString s)) as [[_ ->]|[_ Hd]]; eauto.
  - apply IH.
Qed.


Lemma getProperty_set (k f d : string) (o : JsObject) :
  getProperty k (setProperty f (VString d) o)
  = if String.eqb f k && negb (reachesSetter f o) then VString d else getProperty k o.
Proof.
  rewrite setProperty_string. destruct (reachesSetter f o); [by rewrite andb_false_r|].
  rewrite andb_true_r. unfold getProperty. cbn [own prototype].
  destruct (String.eqb f k) eqn:E.
  - apply String.eqb_eq in E as ->. by rewrite assoc_lookup_set_eq.
  - rewrite assoc_lookup_set_ne; [done|]. intros ->. by rewrite String.eqb_refl in E.
Qed.

Lemma hasProperty_set (k f d : string) (o : JsObject) :
  hasProperty k (setProperty f (VString d) o) = String.eqb f k || hasProperty k o.
Proof.
  destruct (String.eqb f k) eqn:E.
  - apply String.eqb_eq in E as ->. by rewrite hasProperty_set_eq.
  - apply hasProperty_set_ne. intros ->. by rewrite String.eqb_refl in E.
Qed.

Lemma reachesSetter_set_ne (f g e : string) (o : JsObject) :
  g ≠ f -> reachesSetter f (setProperty g (VString e) o) = reachesSetter f o.
Proof.
  intros Hne. unfold reachesSetter.
  by rewrite hasOwnProperty_set_ne, inherits_setProperty_string.
Qed.

Lemma length_ownKeys (o : JsObject) : length (ownKeys o) = length (own o).
Proof. by rewrite (ownKeys_Permutation o), length_fmap. Qed.

Lemma own_keys_set (f d : string) (o : JsObject) :
  (own (setProperty f (VString d) o)).*1
  = if hasOwnProperty f o || reachesSetter f o then (own o).*1
    else ((own o).*1 ++ [f])%list.
Proof.
  rewrite setProperty_string. unfold hasOwnProperty.
  destruct (reachesSetter f o); [by rewrite orb_true_r|].
  rewrite orb_false_r. cbn [own]. apply assoc_set_keys.
Qed.

Section Reachable.

Context {DocInfo : Type}.
Variable disk : Disk.
Implicit Types (this : MemoryDatastore) (h : list (Call DocInfo)).

Lemma run_own_NoDup h this :
  NoDup (own (docMetas this)).*1 -> NoDup (own (docMetas (run disk h this))).*1.
Proof.
  revert this. induction h as [|c h IH]; intros this Hnd; [done|].
  rewrite run_cons. apply IH.
  destruct (exec_write_cases disk c this) as [->|(f & d & di & _ & ->)]; [done|].
  rewrite setProperty_string. destruct (reachesSetter f (docMetas this)); [done|].
  by apply assoc_set_NoDup.
Qed.

(** After a history on a new store the own properties are strings. *)
Lemma run_own_strings (f : string) (v : JSValue) h :
  assoc_lookup f (own (docMetas (run disk h new_MemoryDatastore))) = Some v ->
  typeof v = "string".
Proof.
  intros Hv.
  assert (Ho : hasOwnProperty f (docMetas (run disk h new_MemoryDatastore)) = true).
  { unfold hasOwnProperty. by rewrite Hv. }
  rewrite hasOwnProperty_run_new in Ho. apply andb_true_iff in Ho as [Hw Hp].
  assert (Hf : f ≠ "__proto__").
  { intros ->. discriminate Hp. }
  pose proof (run_last_written disk f h new_MemoryDatastore Hf) as Hl.
  rewrite (getProperty_own _ _ _ Hv) in Hl. rewrite Hl.
  destruct (last_written_cases f h (getProperty f (docMetas new_MemoryDatastore)))
    as [[Hw' _]|[_ [d ->]]]; [congruence | done].
Qed.

End Reachable.


Lemma getDocMetaFiles_own {DocInfo : Type} (disk : Disk) (h : list (Call DocInfo)) :
  ∃ refs : list DocMetaRef,
    getDocMetaFiles (run disk h new_MemoryDatastore)
    = (Ok refs, run disk h new_MemoryDatastore)
    ∧ NoDup refs
    ∧ length refs = length (own (docMetas (run disk h new_MemoryDatastore)))
    ∧ ∀ f, {| ref_fingerprint := f |} ∈ refs
           ↔ written_in f h && negb (String.eqb f "__proto__") = true.
Proof.
  eexists. split; [reflexivity|]. split; [|split].
  - apply NoDup_fmap_2; [by intros ?? [= ->]|].
    rewrite (ownKeys_Permutation _). apply run_own_NoDup. apply NoDup_nil_2.
  - by rewrite length_fmap, length_ownKeys.
  - intros f. rewrite <- hasOwnProperty_run_new with (disk := disk).
    rewrite <- elem_of_ownKeys. split.
    + intros Hin. by apply list_elem_of_fmap in Hin as (g & [= <-] & Hg).
    + intros Hin. apply list_elem_of_fmap. by exists f.
Qed.

(** X11 — After any history of calls on a new store [getDocMetaFiles] lists
    each stored fingerprint once, and leaves the store as it is.  A listed
    fingerprint is contained; [contains] answers [true] for the listed
    fingerprints and for the names the store inherits, and for no other. *)
Theorem getDocMetaFiles_lists_contained {DocInfo : Type} (disk : Disk)
    (h : list (Call DocInfo)) :
  let s := run disk h new_MemoryDatastore in
  ∃ refs : list DocMetaRef,
    getDocMetaFiles s = (Ok refs, s)
    ∧ NoDup refs
    ∧ ∀ f, fst (contains f s)
           = Ok (bool_decide ({| ref_fingerprint := f |} ∈ refs) || inherited_name f).
Proof.
  intros s. subst s.
  destruct (getDocMetaFiles_own disk h) as (refs & Heq & Hnd & _ & Hin).
  exists refs. split; [done|]. split; [done|].
  intros f. rewrite contains_run. cbn [fst]. f_equal.
  rewrite (bool_decide_ext _ _ (Hin f)).
  destruct (String.eqb f "__proto__") eqn:E.
  - apply String.eqb_eq in E as ->. by rewrite !orb_true_r.
  - rewrite andb_true_r. by destruct (written_in f h).
Qed.

(** X12 — After any history of calls on a new store, [getDocMetaFiles]
    lists exactly the fingerprints that were successfully written in it,
    except ["__proto__"], which is never listed; a [delete] in the history
    takes nothing off the list. *)
Theorem getDocMetaFiles_lists_written {DocInfo : Type} (disk : Disk)
    (h : list (Call DocInfo)) (f : string) :
  ∃ refs : list DocMetaRef,
    fst (getDocMetaFiles (run disk h new_MemoryDatastore)) = Ok refs
    ∧ ({| ref_fingerprint := f |} ∈ refs
       ↔ written_in f h = true ∧ f ≠ "__proto__").
Proof.
  destruct (getDocMetaFiles_own disk h) as (refs & Heq & _ & _ & Hin).
  exists refs. rewrite Heq. split; [done|].
  rewrite Hin, andb_true_iff, negb_true_iff. split.
  - intros [Hw Hp]. split; [done|]. intros ->. discriminate Hp.
  - intros [Hw Hp]. split; [done|].
    destruct (String.eqb f "__proto__") eqn:E; [|done].
    by apply String.eqb_eq in E.
Qed.

(** X13 — A [write] to one fingerprint, successful or not, leaves every other
    fingerprint as it was, and leaves the files as they were. *)
Theorem write_is_local {DocInfo : Type} (f g : string) (data : JSValue) (di : DocInfo)
    (this : MemoryDatastore) (m : DatastoreMutation) :
  g ≠ f ->
  let s := fst (snd (write f data di (this, m))) in
  getDocMeta g s = (fst (getDocMeta g this), s)
  ∧ contains g s = (fst (contains g this), s)
  ∧ files s = files this.
Proof.
  intros Hne s. subst s. rewrite !getDocMeta_eq, !contains_eq. cbn [fst].
  destruct (decide (typeof data = "string")) as [Hty|Hty].
  - apply typeof_string in Hty as [d ->]. rewrite write_string.
    cbn [fst snd set_docMetas docMetas files].
    by rewrite getProperty_set_ne, hasProperty_set_ne by done.
  - by rewrite write_rejected.
Qed.

Lemma write_is_local_witness :
  fst (getDocMeta "doc2"
         (fst (snd (write "doc1" (VString "x") tt
                      (new_MemoryDatastore, DefaultDatastoreMutation)))))
  = Ok VUndefined.
Proof.
  assert (Hne : "doc2" ≠ "doc1") by discriminate.
  rewrite (proj1 (write_is_local "doc1" "doc2" (VString "x") tt
                    new_MemoryDatastore DefaultDatastoreMutation Hne)).
  reflexivity.
Defined.

(** X14 — A second successful [write] to a fingerprint leaves no trace of the
    first: the store is the one the second [write] alone would have left. *)
Theorem write_overwrites_without_trace {DocInfo : Type} (f d1 d2 : string)
    (di1 di2 : DocInfo) (this : MemoryDatastore) (m1 m2 : DatastoreMutation) :
  fst (snd (write f (VString d2) di2
              (fst (snd (write f (VString d1) di1 (this, m1))), m2)))
  = fst (snd (write f (VString d2) di2 (this, m2))).
Proof.
  rewrite !write_string. cbn [fst snd]. unfold set_docMetas. cbn [docMetas files].
  by rewrite setProperty_twice.
Qed.

(** X15 — Successful writes to two different fingerprints can be made in
    either order as far as [getDocMeta], [contains] and the files can tell:
    both orders give the same answers for every fingerprint.
    [getDocMetaFiles] lists the same fingerprints after both, but the order
    of the two lists may differ. *)
Theorem writes_to_distinct_fingerprints_commute {DocInfo : Type} (f g d e : string)
    (di : DocInfo) (this : MemoryDatastore) (m : DatastoreMutation) :
  f ≠ g ->
  let s1 := fst (snd (write g (VString e) di
                        (fst (snd (write f (VString d) di (this, m))), m))) in
  let s2 := fst (snd (write f (VString d) di
                        (fst (snd (write g (VString e) di (this, m))), m))) in
  (∀ k, fst (getDocMeta k s1) = fst (getDocMeta k s2))
  ∧ (∀ k, fst (contains k s1) = fst (contains k s2))
  ∧ files s1 = files s2
  ∧ ∃ refs1 refs2,
      fst (getDocMetaFiles s1) = Ok refs1
      ∧ fst (getDocMetaFiles s2) = Ok refs2
      ∧ refs1 ≡ₚ refs2.
Proof.
  intros Hne s1 s2. subst s1 s2. rewrite !write_string. cbn [fst snd].
  unfold set_docMetas. cbn [docMetas files].
  set (o := docMetas this).
  split; [|split; [|split; [done|]]].
  - intros k. rewrite !getDocMeta_eq. cbn [fst docMetas]. f_equal.
    rewrite !getProperty_set, !reachesSetter_set_ne by done.
    destruct (String.eqb g k) eqn:Eg, (String.eqb f k) eqn:Ef; try done.
    apply String.eqb_eq in Eg, Ef. congruence.
  - intros k. rewrite !contains_eq. cbn [fst docMetas]. f_equal.
    rewrite !hasProperty_set.
    by destruct (String.eqb g k), (String.eqb f k).
  - eexists _, _. split; [reflexivity|]. split; [reflexivity|].
    cbn [docMetas]. apply fmap_Permutation.
    rewrite !(ownKeys_Permutation _), !own_keys_set.
    rewrite !reachesSetter_set_ne, !hasOwnProperty_set_ne by done.
    destruct (hasOwnProperty f o || reachesSetter f o),
      (hasOwnProperty g o || reachesSetter g o); try done.
    rewrite <- !app_assoc. apply Permutation_app_head, Permutation_app_comm.
Qed.

Lemma writes_to_distinct_fingerprints_commute_witness :
  let s1 := fst (snd (write "b" (VString "2") tt
                        (fst (snd (write "a" (VString "1") tt
                                     (new_MemoryDatastore, DefaultDatastoreMutation))),
                         DefaultDatastoreMutation))) in
  let s2 := fst (snd (write "a" (VString "1") tt
                        (fst (snd (write "b" (VString "2") tt
                                     (new_MemoryDatastore, DefaultDatastoreMutation))),
                         DefaultDatastoreMutation))) in
  "a" ≠ "b"
  ∧ fst (getDocMeta "a" s1) = fst (getDocMeta "a" s2)
  ∧ fst (getDocMetaFiles s1)
    = Ok [ {| ref_fingerprint := "a" |}; {| ref_fingerprint := "b" |} ]
  ∧ fst (getDocMetaFiles s2)
    = Ok [ {| ref_fingerprint := "b" |}; {| ref_fingerprint := "a" |} ].
Proof.
  intros s1 s2.
  assert (Hne : "a" ≠ "b") by discriminate.
  split; [exact Hne|].
  split; [|split; reflexivity].
  exact (proj1 (writes_to_distinct_fingerprints_commute "a" "b" "1" "2" tt
                  new_MemoryDatastore DefaultDatastoreMutation Hne) "a").
Defined.

(** ** The mutation, again *)

Lemma resolutions_app (fut : Future) (m1 m2 : DatastoreMutation) :
  resolutions fut (m1 ++ m2)%list = (resolutions fut m1 ++ resolutions fut m2)%list.
Proof.
  unfold resolutions, DatastoreMutation in *. by rewrite filter_app, fmap_app.
Qed.

(** X16 — [write] resolves without looking at the mutation: each successful
    [write] adds one resolution, [true], to each of the two futures,
    whatever was resolved before; a mutation passed to two writes has two
    resolutions on each future. *)
Theorem write_resolves_unconditionally {DocInfo : Type} (f g d e : string)
    (di : DocInfo) (this : MemoryDatastore) (m : DatastoreMutation) (fut : Future) :
  let st1 := snd (write f (VString d) di (this, m)) in
  let st2 := snd (write g (VString e) di st1) in
  resolutions fut (snd st1) = (resolutions fut m ++ [true])%list
  ∧ resolutions fut (snd st2) = (resolutions fut m ++ [true; true])%list.
Proof.
  cbn zeta. rewrite write_string. cbn [fst snd]. rewrite write_string. cbn [fst snd].
  rewrite !resolutions_app. split; [by destruct fut|].
  rewrite <- app_assoc. by destruct fut.
Qed.

(** ** Reads *)

(** The reading methods leave the store as it was, also when [getFile] is
    rejected; so do [stop] and [addDocMetaSnapshotEventListener], which do
    nothing at all. *)
Lemma reads_leave_store_unchanged {Listener : Type} (f : string) (b : Backend)
    (r : FileRef) (listener : Listener) (this : MemoryDatastore) :
  snd (contains f this) = this
  ∧ snd (getDocMeta f this) = this
  ∧ snd (getDocMetaFiles this) = this
  ∧ snd (getFile b r this) = this
  ∧ snd (containsFile b r this) = this
  ∧ stop this = (Ok tt, this)
  ∧ addDocMetaSnapshotEventListener listener this = this.
Proof.
  rewrite getFile_eq. repeat split; reflexivity.
Qed.

(** ** Delete and the files *)

(** X17 — The answer of [delete] depends on the document metadata only: two
    stores with the same [docMetas] get the same [DeleteResult], whatever
    their files, and [delete] leaves the files as they are.  The [dataFile]
    target is reported deleted exactly when [contains] answers [true] for
    the fingerprint, as the [docMetaFile] target is; so it is reported
    deleted whenever the fingerprint is stored, also when the store holds
    no file at all. *)
Theorem delete_ignores_files (r : DocMetaFileRef) (s1 s2 : MemoryDatastore) :
  docMetas s1 = docMetas s2 ->
  fst (delete r s1) = fst (delete r s2)
  ∧ files (snd (delete r s1)) = files s1
  ∧ ∃ res : DeleteResult,
      fst (delete r s1) = Ok res
      ∧ fst (contains (fingerprint r) s1) = Ok (deleted (dataFile res))
      ∧ deleted (docMetaFile res) = deleted (dataFile res)
      ∧ (hasOwnProperty (fingerprint r) (docMetas s1) = true ->
         deleted (dataFile res) = true).
Proof.
  intros Hdm. rewrite !delete_eq, contains_eq. cbn [fst snd]. rewrite Hdm.
  split; [done|]. split; [done|]. eexists. split; [reflexivity|].
  cbn [dataFile docMetaFile deleted]. split; [done|]. split; [done|].
  unfold hasProperty. by intros ->.
Qed.

Lemma delete_ignores_files_witness :
  let r := {| fingerprint := "doc1"; docFile := Some {| name := Some "a.pdf" |} |} in
  let o := {| own := [("doc1", VString "x")]; prototype := ObjectPrototype |} in
  let s1 := {| docMetas := o; files := ∅ |} in
  let s2 := {| docMetas := o;
               files := {[ "stash:a.pdf" := {| buffer := []; meta := ∅ |} ]} |} in
  fst (delete r s1) = fst (delete r s2)
  ∧ fst (delete r s1)
    = Ok {| docMetaFile := {| path := "/doc1.json"; deleted := true |};
            dataFile := {| path := "/a.pdf"; deleted := true |} |}.
Proof.
  intros r o s1 s2. split.
  - exact (proj1 (delete_ignores_files r s1 s2 eq_refl)).
  - reflexivity.
Defined.

(** X21 — After any history of calls on a new store, [delete] succeeds and
    reports, for both targets, [deleted = true] exactly when the
    fingerprint was successfully written in the history or names a member
    the store inherits from [Object.prototype]; the [docMetaFile] path is
    ["/" + fingerprint + ".json"]. *)
Theorem delete_reports_written_or_inherited {DocInfo : Type} (disk : Disk)
    (h : list (Call DocInfo)) (r : DocMetaFileRef) :
  ∃ res : DeleteResult,
    fst (delete r (run disk h new_MemoryDatastore)) = Ok res
    ∧ deleted (docMetaFile res)
      = written_in (fingerprint r) h || inherited_name (fingerprint r)
    ∧ deleted (dataFile res)
      = written_in (fingerprint r) h || inherited_name (fingerprint r)
    ∧ path (docMetaFile res) = "/" ++ fingerprint r ++ ".json".
Proof.
  rewrite delete_eq. eexists. split; [reflexivity|].
  cbn [fst docMetaFile dataFile deleted path].
  pose proof (contains_run disk (fingerprint r) h) as Hc.
  rewrite contains_eq in Hc. injection Hc as Hc. by rewrite Hc.
Qed.

(** ** Files along a history *)

Section FileHistory.

Context {DocInfo : Type}.
Variable disk : Disk.
Implicit Types (this : MemoryDatastore) (h : list (Call DocInfo)) (c : Call DocInfo).

Lemma exec_files_lookup (key : string) c this :
  files (exec disk c this) !! key = file_step disk key (files this !! key) c.
Proof.
  destruct c as [f|dr|b r d fm|b r|b r|b r|f|f d di|]; simpl; try done.
  - by rewrite delete_eq.
  - rewrite writeFile_eq.
    destruct (stored_bytes disk d) as [buf|]; cbn [snd].
    + simpl. rewrite lookup_insert. by destruct (decide (toFileRefKey b r = key)).
    + by destruct (decide (toFileRefKey b r = key)).
  - by rewrite getFile_eq.
  - rewrite lookup_delete. by destruct (decide (toFileRefKey b r = key)).
  - destruct (decide (typeof d = "string")) as [Hty|Hty].
    + apply typeof_string in Hty as [s ->]. by rewrite write_string.
    + by rewrite write_rejected.
Qed.

Lemma run_files_lookup (key : string) h this :
  files (run disk h this) !! key = last_file disk key h (files this !! key).
Proof.
  revert this. induction h as [|c h IH]; intros this; [done|].
  rewrite run_cons, IH, exec_files_lookup. reflexivity.
Qed.

End FileHistory.

(** X18 — After any history of calls, the entry under a file key is the one of
    the latest readable [writeFile] under that key, unless a [deleteFile]
    under the key came later; on a store that started new, [containsFile]
    and [getFile] answer accordingly. *)
Theorem files_follow_history {DocInfo : Type} (disk : Disk) (b : Backend) (r : FileRef)
    (h : list (Call DocInfo)) (this : MemoryDatastore) :
  let key := toFileRefKey b r in
  let s := run disk h new_MemoryDatastore in
  files (run disk h this) !! key = last_file disk key h (files this !! key)
  ∧ fst (containsFile b r s) = Ok (isPresent (last_file disk key h None))
  ∧ fst (getFile b r s)
    = match last_file disk key h None with
      | Some fd => Ok (Some {| file_backend := b; file_ref := r; url := "FIXME:none";
                               file_meta := meta fd |})
      | None => Err TypeError
      end.
Proof.
  intros key s. subst key s. split; [apply run_files_lookup|].
  rewrite containsFile_eq, getFile_eq. cbn [fst].
  rewrite (run_files_lookup disk _ h new_MemoryDatastore).
  unfold new_MemoryDatastore. cbn [files]. by rewrite lookup_empty.
Qed.

(** ** The size of the listing *)

(** X19 — After any history of calls on a new store, a successful [write]
    adds one entry to what [getDocMetaFiles] lists when its fingerprint was
    not successfully written before and is not ["__proto__"]; otherwise the
    listing keeps its length.  A fingerprint that names an inherited member
    adds an entry although [contains] answered [true] before the write. *)
Theorem write_grows_listing {DocInfo : Type} (disk : Disk) (h : list (Call DocInfo))
    (f d : string) (di : DocInfo) (m : DatastoreMutation) :
  let s := run disk h new_MemoryDatastore in
  ∃ refs refs' : list DocMetaRef,
    fst (getDocMetaFiles s) = Ok refs
    ∧ fst (getDocMetaFiles (fst (snd (write f (VString d) di (s, m))))) = Ok refs'
    ∧ length refs'
      = if written_in f h || String.eqb f "__proto__" then length refs
        else S (length refs).
Proof.
  intros s. eexists _, _. split; [reflexivity|]. split; [reflexivity|].
  rewrite write_string. cbn [fst snd set_docMetas docMetas].
  rewrite !length_fmap, !length_ownKeys.
  rewrite <- !(length_fmap fst (own _)), own_keys_set.
  assert (Hc : hasOwnProperty f (docMetas s) || reachesSetter f (docMetas s)
               = written_in f h || String.eqb f "__proto__").
  { unfold reachesSetter. subst s.
    rewrite hasOwnProperty_run_new, run_inherits, inherits_new.
    destruct (String.eqb f "__proto__") eqn:E.
    - apply String.eqb_eq in E as ->. by rewrite !andb_false_r, !orb_true_r.
    - by rewrite andb_true_r, andb_false_r, !orb_false_r. }
  rewrite Hc. destruct (written_in f h || String.eqb f "__proto__"); [done|].
  rewrite length_app. simpl. lia.
Qed.

(** ** Round trip of ordinary fingerprints *)

(** X20 — For every fingerprint other than ["__proto__"]: on any store, and
    with any mutation, [write f d] with a string payload [d] succeeds and
    the [getDocMeta f] that follows returns exactly [d]; whatever was found
    under [f] before is overwritten.  After any history of calls
    [getDocMeta f] returns the payload of the latest successful write to
    [f] in it, or what it returned before the history when there is none:
    the last write wins. *)
Theorem write_getDocMeta_round_trip_ordinary {DocInfo : Type} (disk : Disk)
    (f d : string) (di : DocInfo) (this : MemoryDatastore) (m : DatastoreMutation)
    (h : list (Call DocInfo)) :
  f ≠ "__proto__" ->
  let after := fst (snd (write f (VString d) di (this, m))) in
  fst (write f (VString d) di (this, m)) = Ok tt
  ∧ getDocMeta f after = (Ok (VString d), after)
  ∧ fst (getDocMeta f (run disk h this))
    = Ok (last_written f h (getProperty f (docMetas this)))
  ∧ fst (getDocMeta f (run disk (h ++ [CallWrite f (VString d) di])%list this))
    = Ok (VString d).
Proof.
  intros Hf. rewrite write_string. cbn [fst snd]. split; [done|]. split; [|split].
  - rewrite getDocMeta_eq. cbn [set_docMetas docMetas]. by rewrite getProperty_set_eq.
  - rewrite getDocMeta_eq. cbn [fst]. by rewrite run_last_written.
  - rewrite getDocMeta_eq. cbn [fst]. by rewrite run_last_written, last_written_snoc.
Qed.

Lemma write_getDocMeta_round_trip_ordinary_witness :
  "toString" ≠ "__proto__"
  ∧ fst (getDocMeta "toString"
           (fst (snd (write "toString" (VString "x") tt
                        (new_MemoryDatastore, DefaultDatastoreMutation)))))
    = Ok (VString "x").
Proof.
  assert (Hf : "toString" ≠ "__proto__") by discriminate.
  split; [exact Hf|].
  pose proof (write_getDocMeta_round_trip_ordinary ∅ "toString" "x" tt
                new_MemoryDatastore DefaultDatastoreMutation [] Hf) as (_ & Hg & _).
  cbv zeta in Hg. by rewrite Hg.
Defined.

(** ** The order of the listing *)

(** [Object.keys] on a store's object: array indices first, ascending, then
    the other names as they were created; a name written again keeps its
    place, and ["007"] is no array index. *)
Example ownKeys_order :
  ownKeys (setProperty "2" (VString "f") (setProperty "10" (VString "e")
          (setProperty "b" (VString "d") (setProperty "a" (VString "c")
          (setProperty "b" (VString "b") (setProperty "007" (VString "a")
          emptyObject))))))
  = ["2"; "10"; "007"; "b"; "a"].
Proof. vm_compute. reflexivity. Qed.

(** X22 — A successful [write] of a fingerprint that the store does not hold
    as an own property, that is no array index and is not ["__proto__"],
    puts the fingerprint last in what [getDocMetaFiles] lists and leaves
    the rest of the listing as it was. *)
Theorem write_of_new_name_is_listed_last {DocInfo : Type} (f d : string) (di : DocInfo)
    (this : MemoryDatastore) (m : DatastoreMutation) :
  hasOwnProperty f (docMetas this) = false ->
  array_index f = None ->
  f ≠ "__proto__" ->
  ∃ refs : list DocMetaRef,
    fst (getDocMetaFiles this) = Ok refs
    ∧ fst (getDocMetaFiles (fst (snd (write f (VString d) di (this, m)))))
      = Ok (refs ++ [ {| ref_fingerprint := f |} ])%list.
Proof.
  intros Ho Hi Hf. eexists. split; [reflexivity|].
  rewrite write_string. cbn [fst snd set_docMetas docMetas getDocMetaFiles].
  unfold getDocMetaFiles, andThen, getState, ret. cbn [fst docMetas]. f_equal.
  assert (Hr : reachesSetter f (docMetas this) = false).
  { unfold reachesSetter. destruct (String.eqb f "__proto__") eqn:E.
    - by apply String.eqb_eq in E.
    - by rewrite andb_false_r. }
  unfold ownKeys, set_docMetas. cbv zeta. cbn [docMetas].
  rewrite own_keys_set, Ho, Hr. cbn [orb].
  rewrite !filter_app, !filter_cons, !filter_nil.
  rewrite decide_False by (rewrite Hi; by intros [? ?]).
  rewrite decide_True by (rewrite Hi; by intros [? ?]).
  rewrite ?app_nil_r, !fmap_app, <- ?app_assoc. reflexivity.
Qed.

Lemma write_of_new_name_is_listed_last_witness :
  fst (getDocMetaFiles
         (fst (snd (write "doc2" (VString "y") tt
                      ({| docMetas := {| own := [("7", VString "x"); ("doc1", VString "x")];
                                         prototype := ObjectPrototype |};
                          files := ∅ |}, DefaultDatastoreMutation)))))
  = Ok [ {| ref_fingerprint := "7" |}; {| ref_fingerprint := "doc1" |};
         {| ref_fingerprint := "doc2" |} ].
Proof.
  destruct (write_of_new_name_is_listed_last "doc2" "y" tt
              {| docMetas := {| own := [("7", VString "x"); ("doc1", VString "x")];
                                prototype := ObjectPrototype |};
                 files := ∅ |} DefaultDatastoreMutation eq_refl eq_refl)
    as (refs & Hr & Hw); [discriminate|].
  rewrite Hw. injection Hr as <-. reflexivity.
Defined.
